(** * A personal library catalogue: [Book] and [Library] of [library.py]

    The development embeds the data-management layer of [library.py]
    (the [Book] record, the [Library] store, its JSON persistence, its
    search and its identifier generation) and proves the properties its
    specification states about it.

    Conventions of the embedding:
    - a Python [int] is a [Z] (unbounded); a Python [str] is the
      [string] of its UTF-8 bytes, the text the backing file holds;
    - a [Book] has the fields of [Book.__init__] at their annotated
      types; a run that would put a value of another type in a field
      ends in the outcome [Untyped], about which nothing is proved;
    - a [dict] is an association list in insertion order;
    - the elements of [self.books] are objects of their own, so an
      object found in the list is identified by its position;
    - the file system is a finite map from paths to file texts, the
      console is the list of printed lines; failures of the operating
      system (permissions, a full disk) are not modelled;
    - every method is a computation in the monad [M], which threads the
      world (file system and console) and propagates exceptions;
    - Python's own library ([str.lower], [str.strip], [json.dumps],
      [json.loads]) is an interface, [PyBuiltins]; the theorems hold for
      every implementation of it. A reference implementation runs the
      code on concrete inputs, and is proved to read back every
      collection of books it writes. *)

From stdpp Require Import gmap strings list fin_maps relations.
From Stdlib Require Import ZArith Ascii.
From Stdlib Require Import DecimalString.
From Stdlib Require DecimalFacts DecimalPos.

Set Warnings "-register-all".
Local Open Scope Z_scope.

(** ** Values exchanged with the [json] module *)

(** What [json.loads] can return and [json.dumps] accepts. A float keeps
    its literal text: floating point is not interpreted here. *)
Inductive json : Type :=
  | JNull
  | JBool (b : bool)
  | JInt (n : Z)
  | JFloat (literal : string)
  | JStr (s : string)
  | JArr (items : list json)
  | JObj (fields : list (string * json)).

(** [d.get(key)] on a dict kept as an association list. *)
Fixpoint dict_get (key : string) (d : list (string * json)) : option json :=
  match d with
  | [] => None
  | (k, v) :: rest => if String.eqb k key then Some v else dict_get key rest
  end.

(** ** Exceptions and outcomes *)

Inductive exn : Type :=
  | KeyError (key : string)
  | TypeError
  | JSONDecodeError
  | FileNotFoundError.

(** The outcome of running a piece of code: it returns, it raises, or it
    leaves the typed fragment ([Untyped]): a [Book] would hold a value
    its annotation excludes ([title: str], [year: int], ...), about which
    this development says nothing. *)
Inductive outcome (A : Type) : Type :=
  | Return (a : A)
  | Raise (e : exn)
  | Untyped.
Arguments Return {A} a.
Arguments Raise {A} e.
Arguments Untyped {A}.

#[global] Instance outcome_ret : MRet outcome := @Return.
#[global] Instance outcome_bind : MBind outcome := λ A B f m,
  match m with
  | Return a => f a
  | Raise e => Raise e
  | Untyped => Untyped
  end.

(** ** The interface to Python's library *)

(** [json_loads] is [None] where [json.loads] raises [JSONDecodeError];
    [json_dumps] is [json.dumps(., ensure_ascii=False, indent=4)]. *)
Class PyBuiltins : Type := {
  str_lower : string → string;
  str_strip : string → string;
  json_dumps : json → string;
  json_loads : string → option json
}.

(** [needle in hay] on strings: [needle] occurs as a contiguous part. *)
Fixpoint str_in (needle hay : string) : bool :=
  if String.prefix needle hay then true
  else match hay with
       | EmptyString => false
       | String _ hay' => str_in needle hay'
       end.

(** [str(n)] for an [int]. *)
Definition str_of_int (n : Z) : string := NilZero.string_of_int (Z.to_int n).

(** The truth value of a [str] and of an [int] in an [if]. *)
Definition truthy_str (s : string) : bool := negb (String.eqb s EmptyString).
Definition truthy_int (n : Z) : bool := negb (n =? 0).

(** [max(iterable)] on a non-empty iterable, given as its first item
    and the rest: the running maximum is replaced by a greater item. *)
Definition py_max (first : Z) (rest : list Z) : Z :=
  fold_left (λ max_item item, if item >? max_item then item else max_item)
            rest first.

(** ** Book *)

Record Book : Type := mkBook {
  id : Z;
  title : string;
  author : string;
  year : Z;
  status : string
}.

Definition default_status : string := "в наличии".

(** [Book.__init__(self, title, author, year, book_id, status)]. *)
Definition Book_init (title author : string) (year book_id : Z)
    (status : string) : Book :=
  {| id := book_id; title := title; author := author; year := year;
     status := status |}.

(** [Book.to_dict]. *)
Definition to_dict (self : Book) : json :=
  JObj [ ("id", JInt (id self));
         ("title", JStr (title self));
         ("author", JStr (author self));
         ("year", JInt (year self));
         ("status", JStr (status self)) ].

(** [data[key]]: a missing key raises [KeyError]; only a dict can be
    subscripted by a string. *)
Definition subscript (data : json) (key : string) : outcome json :=
  match data with
  | JObj d => match dict_get key d with
              | Some v => Return v
              | None => Raise (KeyError key)
              end
  | _ => Raise TypeError
  end.

(** The values the annotations of [Book.__init__] admit. *)
Definition as_str (v : json) : outcome string :=
  match v with JStr s => Return s | _ => Untyped end.
Definition as_int (v : json) : outcome Z :=
  match v with JInt n => Return n | _ => Untyped end.

(** [Book.from_dict]: the five subscripts are evaluated in argument
    order, then the constructor is called. *)
Definition from_dict (data : json) : outcome Book :=
  v_title ← subscript data "title";
  v_author ← subscript data "author";
  v_year ← subscript data "year";
  v_id ← subscript data "id";
  v_status ← subscript data "status";
  title ← as_str v_title;
  author ← as_str v_author;
  year ← as_int v_year;
  book_id ← as_int v_id;
  status ← as_str v_status;
  mret (Book_init title author year book_id status).

(** ** The world and the monad of methods *)

Record World : Type := mkWorld {
  fs : gmap string string;
  stdout : list string
}.

Definition M (A : Type) : Type := World → outcome A * World.

#[global] Instance M_ret : MRet M := λ A a w, (Return a, w).
#[global] Instance M_bind : MBind M := λ A B f m w,
  match m w with
  | (Return a, w') => f a w'
  | (Raise e, w') => (Raise e, w')
  | (Untyped, w') => (Untyped, w')
  end.

Definition lift {A} (o : outcome A) : M A := λ w, (o, w).
Definition raise {A} (e : exn) : M A := lift (Raise e).

(** [os.path.exists], reading and writing a whole file, [print]. *)
Definition path_exists (path : string) : M bool :=
  λ w, (Return (bool_decide (is_Some (fs w !! path))), w).
Definition read_file (path : string) : M string :=
  λ w, match fs w !! path with
       | Some text => (Return text, w)
       | None => (Raise FileNotFoundError, w)
       end.
Definition write_file (path text : string) : M unit :=
  λ w, (Return (), {| fs := <[path := text]> (fs w); stdout := stdout w |}).
Definition print (line : string) : M unit :=
  λ w, (Return (), {| fs := fs w; stdout := stdout w ++ [line] |}).

(** [try: body except json.JSONDecodeError: handler]. *)
Definition try_except_JSONDecodeError {A} (body handler : M A) : M A :=
  λ w, match body w with
       | (Raise JSONDecodeError, w') => handler w'
       | r => r
       end.

(** [json.loads(data)]. *)
Definition loads `{PyBuiltins} (data : string) : M json :=
  match json_loads data with
  | Some v => mret v
  | None => raise JSONDecodeError
  end.

(** [for book in value]: a list gives its items, a dict its keys, a
    string its characters; nothing else is iterable. *)
Definition iterate (value : json) : outcome (list json) :=
  match value with
  | JArr items => Return items
  | JObj d => Return (map (λ kv, JStr kv.1) d)
  | JStr s => Return (map (λ c, JStr (String c EmptyString)) (String.list_ascii_of_string s))
  | _ => Raise TypeError
  end.

(** ** Library *)

Record Library : Type := mkLibrary {
  storage_file : string;
  books : list Book
}.

Definition set_books (self : Library) (bs : list Book) : Library :=
  {| storage_file := storage_file self; books := bs |}.

Definition msg_decode_error : string :=
  "Ошибка декодирования JSON. Файл поврежден или пуст.".

Definition msg_not_found (book_id : Z) : string :=
  "Книга с ID " +:+ str_of_int book_id +:+ " не найдена.".

(** [Library.load_books]. *)
Definition load_books `{PyBuiltins} (self : Library) : M Library :=
  found ← path_exists (storage_file self);
  if found : bool then
    try_except_JSONDecodeError
      (text ← read_file (storage_file self);
       let data := str_strip text in
       if truthy_str data then
         value ← loads data;
         records ← lift (iterate value);
         bs ← lift (mapM from_dict records);
         mret (set_books self bs)
       else mret self)
      (print msg_decode_error;; mret self)
  else mret self.

(** [Library.__init__]. *)
Definition Library_init `{PyBuiltins} (storage_file : string) : M Library :=
  load_books {| storage_file := storage_file; books := [] |}.

(** [Library.save_books]. *)
Definition save_books `{PyBuiltins} (self : Library) : M unit :=
  write_file (storage_file self) (json_dumps (JArr (map to_dict (books self)))).

(** [Library._generate_id]. *)
Definition _generate_id (self : Library) : Z :=
  match books self with
  | [] => 1
  | book :: rest => py_max (id book) (map id rest) + 1
  end.

(** [Library.add_book]. *)
Definition add_book `{PyBuiltins} (self : Library) (title author : string)
    (year : Z) : M Library :=
  let new_id := _generate_id self in
  let new_book := Book_init title author year new_id default_status in
  let self' := set_books self (books self ++ [new_book]) in
  save_books self';;
  mret self'.

(** [Library.find_book_by_id]: the first book whose id matches. The
    result is the object found: its position in [self.books], which is
    its identity there (every element of [self.books] is an object of
    its own, made by [add_book] or by [from_dict]), and its fields. *)
Fixpoint find_from (pos : nat) (bs : list Book) (book_id : Z)
    : option (nat * Book) :=
  match bs with
  | [] => None
  | book :: rest =>
      if id book =? book_id then Some (pos, book)
      else find_from (S pos) rest book_id
  end.

Definition find_book_by_id (self : Library) (book_id : Z)
    : option (nat * Book) :=
  find_from 0 (books self) book_id.

(** [Library.remove_book]. [self.books.remove(book)] removes the first
    element equal to [book]; [Book] defines no [__eq__], so that is the
    object found, at its position. *)
Definition remove_book `{PyBuiltins} (self : Library) (book_id : Z)
    : M Library :=
  match find_book_by_id self book_id with
  | Some (pos, _) =>
      let self' := set_books self (delete pos (books self)) in
      save_books self';;
      mret self'
  | None =>
      print (msg_not_found book_id);;
      mret self
  end.

Definition set_status (book : Book) (new_status : string) : Book :=
  {| id := id book; title := title book; author := author book;
     year := year book; status := new_status |}.

(** [Library.change_status]: [book.status = new_status] on the object
    found. *)
Definition change_status `{PyBuiltins} (self : Library) (book_id : Z)
    (new_status : string) : M Library :=
  match find_book_by_id self book_id with
  | Some (pos, book) =>
      let self' :=
        set_books self (<[pos := set_status book new_status]> (books self)) in
      save_books self';;
      mret self'
  | None =>
      print (msg_not_found book_id);;
      mret self
  end.

(** The tests of the three comprehensions of [find_books]. *)
Definition title_test `{PyBuiltins} (wanted : string) (book : Book) : bool :=
  str_in (str_lower wanted) (str_lower (title book)).
Definition author_test `{PyBuiltins} (wanted : string) (book : Book) : bool :=
  str_in (str_lower wanted) (str_lower (author book)).
Definition year_test (wanted : Z) (book : Book) : bool :=
  year book =? wanted.

(** [Library.find_books]: a criterion filters only when it is truthy
    ([None], the empty string and [0] are not). *)
Definition find_books `{PyBuiltins} (self : Library)
    (title author : option string) (year : option Z) : list Book :=
  let result := books self in
  let result :=
    match title with
    | Some t => if truthy_str t then List.filter (title_test t) result
                else result
    | None => result
    end in
  let result :=
    match author with
    | Some a => if truthy_str a then List.filter (author_test a) result
                else result
    | None => result
    end in
  let result :=
    match year with
    | Some y => if truthy_int y then List.filter (year_test y) result
                else result
    | None => result
    end in
  result.

(** [Library.list_books]. *)
Definition list_books (self : Library) : list Book := books self.


(** ** A reference implementation of the interface

    Enough of Python's library to run the store on concrete inputs:
    ASCII case folding and white space, and a JSON encoder and decoder
    for texts without surrogate escapes. *)
Module Reference.

Definition code (c : ascii) : N := N_of_ascii c.

Definition quote : ascii := "034"%char.
Definition backslash : ascii := "092"%char.
Definition newline : ascii := "010"%char.

Definition lower_char (c : ascii) : ascii :=
  if (65 <=? code c)%N && (code c <=? 90)%N
  then ascii_of_N (code c + 32) else c.

Fixpoint lower (s : string) : string :=
  match s with
  | EmptyString => EmptyString
  | String c s' => String (lower_char c) (lower s')
  end.

Definition is_space (c : ascii) : bool :=
  ((9 <=? code c)%N && (code c <=? 13)%N)
  || ((28 <=? code c)%N && (code c <=? 32)%N).

Fixpoint lstrip (s : string) : string :=
  match s with
  | String c s' => if is_space c then lstrip s' else s
  | EmptyString => EmptyString
  end.

Fixpoint rstrip (s : string) : string :=
  match s with
  | String c s' =>
      match rstrip s' with
      | EmptyString => if is_space c then EmptyString
                       else String c EmptyString
      | kept => String c kept
      end
  | EmptyString => EmptyString
  end.

Definition strip (s : string) : string := rstrip (lstrip s).

(** *** Encoding *)

Definition hex_digit (n : N) : ascii :=
  if (n <? 10)%N then ascii_of_N (48 + n) else ascii_of_N (87 + n).

Definition escape_char (c : ascii) : string :=
  if Ascii.eqb c quote then String backslash (String quote EmptyString)
  else if Ascii.eqb c backslash
    then String backslash (String backslash EmptyString)
  else if Ascii.eqb c newline then String backslash "n"
  else if Ascii.eqb c "013"%char then String backslash "r"
  else if Ascii.eqb c "009"%char then String backslash "t"
  else if Ascii.eqb c "008"%char then String backslash "b"
  else if Ascii.eqb c "012"%char then String backslash "f"
  else if (code c <? 32)%N
    then String backslash
           ("u00" +:+ String (hex_digit (code c / 16))
                        (String (hex_digit (code c mod 16)) EmptyString))
  else String c EmptyString.

Fixpoint escape (s : string) : string :=
  match s with
  | EmptyString => EmptyString
  | String c s' => escape_char c +:+ escape s'
  end.

Definition quoted (s : string) : string :=
  String quote (escape s +:+ String quote EmptyString).

Fixpoint spaces (n : nat) : string :=
  match n with
  | O => EmptyString
  | S n' => String " " (spaces n')
  end.

(** A line break followed by the indentation of [level]. *)
Definition break (level : nat) : string :=
  String newline (spaces (4 * level)).

(** [indent=4]: the items of a non-empty list or dict go one per line,
    one level deeper, joined by a comma. *)
Fixpoint dump (level : nat) (v : json) : string :=
  match v with
  | JNull => "null"
  | JBool true => "true"
  | JBool false => "false"
  | JInt n => str_of_int n
  | JFloat literal => literal
  | JStr s => quoted s
  | JArr [] => "[]"
  | JArr items =>
      "[" +:+ break (S level)
      +:+ String.concat ("," +:+ break (S level))
                        (map (dump (S level)) items)
      +:+ break level +:+ "]"
  | JObj [] => "{}"
  | JObj fields =>
      "{" +:+ break (S level)
      +:+ String.concat ("," +:+ break (S level))
                        (map (λ kx, quoted kx.1 +:+ ": " +:+ dump (S level) kx.2)
                             fields)
      +:+ break level +:+ "}"
  end.

Definition dumps (v : json) : string := dump 0 v.

(** *** Decoding *)

Definition is_json_space (c : ascii) : bool :=
  Ascii.eqb c " " || Ascii.eqb c "009"%char || Ascii.eqb c newline
  || Ascii.eqb c "013"%char.

Fixpoint skip_ws (s : string) : string :=
  match s with
  | String c s' => if is_json_space c then skip_ws s' else s
  | EmptyString => EmptyString
  end.

(** The rest of [s] after the prefix [p], if [s] starts with it. *)
Fixpoint after (p s : string) : option string :=
  match p, s with
  | EmptyString, _ => Some s
  | String a p', String b s' => if Ascii.eqb a b then after p' s' else None
  | String _ _, EmptyString => None
  end.

Definition is_digit (c : ascii) : bool :=
  (48 <=? code c)%N && (code c <=? 57)%N.

(** What follows a number inside the texts [dump] writes. *)
Definition delimiter (c : ascii) : Prop := c = ","%char ∨ c = newline.

(** The longest run of digits at the head of [s], and what follows. *)
Fixpoint span_digits (s : string) : string * string :=
  match s with
  | String c s' =>
      if is_digit c then
        let '(ds, rest) := span_digits s' in (String c ds, rest)
      else (EmptyString, s)
  | EmptyString => (EmptyString, EmptyString)
  end.

(** The number a run of digits denotes. *)
Definition digits_value (ds : string) : Z :=
  match NilEmpty.uint_of_string ds with
  | Some d => Z.of_uint d
  | None => 0
  end.

Definition hex_value (c : ascii) : option N :=
  if is_digit c then Some (code c - 48)%N
  else if (97 <=? code c)%N && (code c <=? 102)%N then Some (code c - 87)%N
  else if (65 <=? code c)%N && (code c <=? 70)%N then Some (code c - 55)%N
  else None.

(** UTF-8 of a code point of the basic plane that is no surrogate. *)
Definition utf8 (cp : N) : option string :=
  if (cp <? 128)%N then Some (String (ascii_of_N cp) EmptyString)
  else if (cp <? 2048)%N then
    Some (String (ascii_of_N (192 + cp / 64))
            (String (ascii_of_N (128 + cp mod 64)) EmptyString))
  else if (55296 <=? cp)%N && (cp <=? 57343)%N then None
  else
    Some (String (ascii_of_N (224 + cp / 4096))
            (String (ascii_of_N (128 + (cp / 64) mod 64))
               (String (ascii_of_N (128 + cp mod 64)) EmptyString))).

Definition unescape (e : ascii) : option ascii :=
  if Ascii.eqb e quote then Some quote
  else if Ascii.eqb e backslash then Some backslash
  else if Ascii.eqb e "/" then Some "/"%char
  else if Ascii.eqb e "n" then Some newline
  else if Ascii.eqb e "r" then Some "013"%char
  else if Ascii.eqb e "t" then Some "009"%char
  else if Ascii.eqb e "b" then Some "008"%char
  else if Ascii.eqb e "f" then Some "012"%char
  else None.

(** The body of a string literal, up to its closing quote. *)
Fixpoint scan_string (s : string) : option (string * string) :=
  match s with
  | EmptyString => None
  | String c rest =>
      if Ascii.eqb c quote then Some (EmptyString, rest)
      else if Ascii.eqb c backslash then
        match rest with
        | String "u" (String h1 (String h2 (String h3 (String h4 rest')))) =>
            d1 ← hex_value h1; d2 ← hex_value h2;
            d3 ← hex_value h3; d4 ← hex_value h4;
            bytes ← utf8 (((d1 * 16 + d2) * 16 + d3) * 16 + d4)%N;
            '(body, rest'') ← scan_string rest';
            Some (bytes +:+ body, rest'')
        | String e rest' =>
            c' ← unescape e;
            '(body, rest'') ← scan_string rest';
            Some (String c' body, rest'')
        | EmptyString => None
        end
      else if (code c <? 32)%N then None
      else
        '(body, rest') ← scan_string rest;
        Some (String c body, rest')
  end.

(** The parts of a number at the head of a text: the integer part is
    [0] or a run of digits not starting with [0]; a fraction is a dot
    and a run of digits; an exponent is [e] or [E], an optional sign
    and a run of digits. A part that is absent is empty. *)
Definition scan_int_part (s : string) : option (string * string) :=
  match s with
  | String "0" s' => Some ("0", s')
  | _ => let '(ds, rest) := span_digits s in
         match ds with
         | EmptyString => None
         | _ => Some (ds, rest)
         end
  end.

Definition scan_fraction (s : string) : string * string :=
  match s with
  | String "." s' =>
      let '(ds, rest) := span_digits s' in
      match ds with
      | EmptyString => (EmptyString, s)
      | _ => (String "." ds, rest)
      end
  | _ => (EmptyString, s)
  end.

Definition scan_exponent (s : string) : string * string :=
  match s with
  | String e s' =>
      if Ascii.eqb e "e" || Ascii.eqb e "E" then
        let '(sign, s'') :=
          match s' with
          | String "+" t => ("+", t)
          | String "-" t => ("-", t)
          | _ => (EmptyString, s')
          end in
        let '(ds, rest) := span_digits s'' in
        match ds with
        | EmptyString => (EmptyString, s)
        | _ => (String e (sign +:+ ds), rest)
        end
      else (EmptyString, s)
  | EmptyString => (EmptyString, s)
  end.

(** A number at the head of [s]; with a fraction or an exponent it is
    a float, otherwise an int. *)
Definition scan_number (s : string) : option (json * string) :=
  let '(negative, s1) :=
    match s with
    | String "-" s' => (true, s')
    | _ => (false, s)
    end in
  '(int_part, s2) ← scan_int_part s1;
  let '(frac, s3) := scan_fraction s2 in
  let '(expo, s4) := scan_exponent s3 in
  let sign := if negative : bool then "-" else EmptyString in
  match frac, expo with
  | EmptyString, EmptyString =>
      Some (JInt (if negative then - digits_value int_part
                  else digits_value int_part), s4)
  | _, _ => Some (JFloat (sign +:+ int_part +:+ frac +:+ expo), s4)
  end.

Definition scan_scalar (s : string) : option (json * string) :=
  match after "null" s with Some rest => Some (JNull, rest) | None =>
  match after "true" s with Some rest => Some (JBool true, rest) | None =>
  match after "false" s with Some rest => Some (JBool false, rest) | None =>
  match after "NaN" s with Some rest => Some (JFloat "NaN", rest) | None =>
  match after "Infinity" s with
  | Some rest => Some (JFloat "Infinity", rest) | None =>
  match after "-Infinity" s with
  | Some rest => Some (JFloat "-Infinity", rest) | None =>
  scan_number s
  end end end end end end.

(** [d[k] = v]: an existing key keeps its place. *)
Fixpoint dict_set (k : string) (v : json) (d : list (string * json))
    : list (string * json) :=
  match d with
  | [] => [(k, v)]
  | (k', v') :: rest =>
      if String.eqb k' k then (k', v) :: rest
      else (k', v') :: dict_set k v rest
  end.

(** What the decoder is reading: a value, the items of an array after
    those in [acc], or the members of an object after those in [acc]. *)
Inductive goal : Type :=
  | Value
  | Elements (acc : list json)
  | Members (acc : list (string * json)).

Fixpoint parse (fuel : nat) (g : goal) (s : string)
    : option (json * string) :=
  match fuel with
  | O => None
  | S fuel' =>
      match g with
      | Value =>
          match skip_ws s with
          | EmptyString => None
          | String c rest =>
              if Ascii.eqb c "[" then
                match skip_ws rest with
                | String "]" rest' => Some (JArr [], rest')
                | _ => parse fuel' (Elements []) rest
                end
              else if Ascii.eqb c "{" then
                match skip_ws rest with
                | String "}" rest' => Some (JObj [], rest')
                | _ => parse fuel' (Members []) rest
                end
              else if Ascii.eqb c quote then
                '(body, rest') ← scan_string rest;
                Some (JStr body, rest')
              else scan_scalar (String c rest)
          end
      | Elements acc =>
          '(v, rest) ← parse fuel' Value s;
          match skip_ws rest with
          | String "," rest' => parse fuel' (Elements (acc ++ [v])) rest'
          | String "]" rest' => Some (JArr (acc ++ [v]), rest')
          | _ => None
          end
      | Members acc =>
          match skip_ws s with
          | String c rest =>
              if Ascii.eqb c quote then
                '(k, rest1) ← scan_string rest;
                match skip_ws rest1 with
                | String ":" rest2 =>
                    '(v, rest3) ← parse fuel' Value rest2;
                    match skip_ws rest3 with
                    | String "," rest' =>
                        parse fuel' (Members (dict_set k v acc)) rest'
                    | String "}" rest' =>
                        Some (JObj (dict_set k v acc), rest')
                    | _ => None
                    end
                | _ => None
                end
              else None
          | EmptyString => None
          end
      end
  end.

(** [json.loads]: one value, then nothing but white space. *)
Definition loads (s : string) : option json :=
  '(v, rest) ← parse (2 * String.length s + 2) Value s;
  match skip_ws rest with
  | EmptyString => Some v
  | _ => None
  end.

#[export] Instance builtins : PyBuiltins := {|
  str_lower := lower;
  str_strip := strip;
  json_dumps := dumps;
  json_loads := loads
|}.

End Reference.

(** ** Notions the properties are stated with *)

(** [m] is the maximum identifier present in [bs]. *)
Definition is_max_id (m : Z) (bs : list Book) : Prop :=
  (∃ b, b ∈ bs ∧ id b = m) ∧ ∀ b, b ∈ bs → id b ≤ m.

(** The world after [save_books self]: the backing file holds the
    encoding of the current collection, nothing is printed. *)
Definition saved `{PyBuiltins} (self : Library) (w : World) : World :=
  {| fs := <[storage_file self := json_dumps (JArr (map to_dict (books self)))]> (fs w);
     stdout := stdout w |}.

(** The identifiers of a store, in the order of its books. *)
Definition ids (self : Library) : list Z := map id (books self).

(** The invariant of the data model: identifiers are positive and no two
    books share one. *)
Definition well_formed (self : Library) : Prop :=
  NoDup (ids self) ∧ Forall (λ i, 1 ≤ i) (ids self).

(** One call of a mutating method of the store, in some world. *)
Inductive api_step `{PyBuiltins} (self : Library) : Library → Prop :=
  | step_add_book (t a : string) (y : Z) (w w' : World) (self' : Library) :
      add_book self t a y w = (Return self', w') → api_step self self'
  | step_remove_book (book_id : Z) (w w' : World) (self' : Library) :
      remove_book self book_id w = (Return self', w') → api_step self self'
  | step_change_status (book_id : Z) (new_status : string) (w w' : World)
      (self' : Library) :
      change_status self book_id new_status w = (Return self', w') →
      api_step self self'.

(** [needle] occurs in [hay]: some text before it, some text after. *)
Definition occurs_in (needle hay : string) : Prop :=
  ∃ before rest, hay = before +:+ needle +:+ rest.

(** The keys [from_dict] reads. *)
Definition required_keys : list string :=
  ["title"; "author"; "year"; "id"; "status"].

(** Case-insensitive containment, as the specification words it:
    [needle] occurs in [hay] once both are lowered. *)
Definition contains_ci `{PyBuiltins} (needle hay : string) : Prop :=
  occurs_in (str_lower needle) (str_lower hay).

(** A book meets all the criteria that count: a criterion counts when
    it is given and truthy (a non-empty text, a non-zero year). *)
Definition meets `{PyBuiltins} (by_title by_author : option string)
    (by_year : option Z) (b : Book) : Prop :=
  (∀ t, by_title = Some t → t ≠ EmptyString → contains_ci t (title b))
  ∧ (∀ a, by_author = Some a → a ≠ EmptyString → contains_ci a (author b))
  ∧ (∀ y, by_year = Some y → y ≠ 0 → year b = y).

(** The same as a test, to filter with. *)
Definition meetsb `{PyBuiltins} (by_title by_author : option string)
    (by_year : option Z) (b : Book) : bool :=
  match by_title with
  | Some t => negb (truthy_str t) || title_test t b
  | None => true
  end
  && match by_author with
     | Some a => negb (truthy_str a) || author_test a b
     | None => true
     end
  && match by_year with
     | Some y => negb (truthy_int y) || year_test y b
     | None => true
     end.

(** A book meets all the criteria that are given, falsy or not: the
    reading under which a year of [0] is a criterion like any other. *)
Definition meets_given `{PyBuiltins} (by_title by_author : option string)
    (by_year : option Z) (b : Book) : Prop :=
  (∀ t, by_title = Some t → contains_ci t (title b))
  ∧ (∀ a, by_author = Some a → contains_ci a (author b))
  ∧ (∀ y, by_year = Some y → year b = y).

(** The [json] module reads back what it wrote for [v]: the text
    [json_dumps v], stripped as [load_books] strips it, is not empty and
    decodes to [v]. *)
Definition reads_back `{PyBuiltins} (v : json) : Prop :=
  truthy_str (str_strip (json_dumps v)) = true
  ∧ json_loads (str_strip (json_dumps v)) = Some v.

(** The world after the decode diagnostic is printed. *)
Definition decode_reported (w : World) : World :=
  {| fs := fs w; stdout := stdout w ++ [msg_decode_error] |}.

(** ** Sample data *)

Definition library_json : string := "library.json".

Definition dune : Book := Book_init "Dune" "Herbert" 1965 1 default_status.
Definition foundation : Book :=
  Book_init "Foundation" "Asimov" 1951 2 default_status.
Definition solaris : Book := Book_init "Solaris" "Lem" 1961 3 "выдана".

(** Two books a hand-edited file gives the same identifier. *)
Definition twin_a : Book := Book_init "Emma" "Austen" 1815 1 default_status.
Definition twin_b : Book := Book_init "Ulysses" "Joyce" 1922 1 default_status.

(** A book a hand-edited file gives the identifier [0]. *)
Definition nought : Book := Book_init "Walden" "Thoreau" 1854 0 default_status.

Definition shelf (bs : list Book) : Library :=
  {| storage_file := library_json; books := bs |}.

(** A world whose only file is the backing file, with the given text. *)
Definition world_with (text : string) : World :=
  {| fs := {[ library_json := text ]}; stdout := [] |}.

Definition no_files : World := {| fs := ∅; stdout := [] |}.


(** ** Further notions *)

(** The first key, in the order [from_dict] reads them, that a dict
    lacks. *)
Definition first_missing (d : list (string * json)) : option string :=
  List.find (λ key, match dict_get key d with Some _ => false | None => true end)
            required_keys.

(** The values a [for] loop runs over without a single turn, lists
    apart: the empty dict and the empty string. *)
Definition iterates_nothing (value : json) : bool :=
  match value with
  | JObj [] => true
  | JStr EmptyString => true
  | _ => false
  end.

(** ** The console menu: [main] *)

(** [int(text)]: [None] where it raises [ValueError]. *)
Class PyInt : Type := { py_int : string → option Z }.

(** What the console shows: a line written by [print], or the prompt of
    an [input], which is written without a line break. *)
Inductive shown : Type :=
  | Line (text : string)
  | Prompt (text : string).

(** The terminal [main] runs in: the lines still to be typed, what has
    been shown so far, and the files. *)
Record Terminal : Type := mkTerminal {
  stdin : list string;
  screen : list shown;
  disk : gmap string string
}.

(** How [main], or a part of it, ends other than by returning: an
    exception a method of the store let through, the [ValueError] of
    [int], the [EOFError] of [input], or a store outside the annotated
    types. *)
Inductive crash : Type :=
  | Uncaught (e : exn)
  | ValueError
  | EOFError
  | IllTyped.

Inductive flow (A : Type) : Type :=
  | Done (a : A)
  | Crashed (c : crash).
Arguments Done {A} a.
Arguments Crashed {A} c.

Definition T (A : Type) : Type := Terminal → flow A * Terminal.

#[global] Instance T_ret : MRet T := λ A a t, (Done a, t).
#[global] Instance T_bind : MBind T := λ A B f m t,
  match m t with
  | (Done a, t') => f a t'
  | (Crashed c, t') => (Crashed c, t')
  end.

Definition show (items : list shown) (t : Terminal) : Terminal :=
  {| stdin := stdin t; screen := screen t ++ items; disk := disk t |}.

(** [print(text)]. *)
Definition say (text : string) : T unit :=
  λ t, (Done (), show [Line text] t).

(** [input(prompt)]: the prompt is shown, then a line is read; at the
    end of the input [EOFError] is raised. *)
Definition input (prompt : string) : T string :=
  λ t, match stdin t with
       | line :: rest =>
           (Done line,
            {| stdin := rest; screen := screen t ++ [Prompt prompt];
               disk := disk t |})
       | [] => (Crashed EOFError, show [Prompt prompt] t)
       end.

(** [int(text)]. *)
Definition int `{PyInt} (text : string) : T Z :=
  λ t, match py_int text with
       | Some n => (Done n, t)
       | None => (Crashed ValueError, t)
       end.

(** A call of a method of the store: it runs on the files of the
    terminal, and the lines it prints are shown. *)
Definition call {A} (method : M A) : T A :=
  λ t, let '(o, w) := method {| fs := disk t; stdout := [] |} in
       let t' := {| stdin := stdin t;
                    screen := screen t ++ map Line (stdout w);
                    disk := fs w |} in
       match o with
       | Return a => (Done a, t')
       | Raise e => (Crashed (Uncaught e), t')
       | Untyped => (Crashed IllTyped, t')
       end.

(** The line [main] prints for a book. *)
Definition show_book (book : Book) : string :=
  "ID: " +:+ str_of_int (id book) +:+ ", Название: " +:+ title book
  +:+ ", Автор: " +:+ author book +:+ ", Год: " +:+ str_of_int (year book)
  +:+ ", Статус: " +:+ status book.

(** [for book in books: print(...)]. *)
Fixpoint show_books (bs : list Book) : T unit :=
  match bs with
  | [] => mret ()
  | book :: rest => say (show_book book);; show_books rest
  end.

Definition menu : list string :=
  [ String "010" "Меню:"; "1. Добавить книгу"; "2. Удалить книгу";
    "3. Найти книгу"; "4. Показать все книги"; "5. Изменить статус книги";
    "6. Выход" ].

Fixpoint say_all (lines : list string) : T unit :=
  match lines with
  | [] => mret ()
  | line :: rest => say line;; say_all rest
  end.

Definition status_checked_out : string := "выдана".

(** What a turn of the loop leads to: another turn, with the store as
    the turn left it, or the end of the loop ([break]). *)
Inductive next : Type :=
  | Again (library : Library)
  | Leave.

(** Choice 1. *)
Definition add_turn `{PyBuiltins, PyInt} (library : Library) : T next :=
  title ← input "Введите название книги: ";
  author ← input "Введите автора книги: ";
  year_text ← input "Введите год издания книги: ";
  year ← int year_text;
  library' ← call (add_book library title author year);
  say "Книга добавлена.";;
  mret (Again library').

(** Choice 2. *)
Definition remove_turn `{PyBuiltins, PyInt} (library : Library) : T next :=
  id_text ← input "Введите ID книги, которую нужно удалить: ";
  book_id ← int id_text;
  library' ← call (remove_book library book_id);
  mret (Again library').

(** The end of choice 3: [if books: ... else: ...]. *)
Definition show_found (found : list Book) : T unit :=
  match found with
  | [] => say "Книги не найдены."
  | _ :: _ => show_books found
  end.

(** Choice 3. *)
Definition search_turn `{PyBuiltins, PyInt} (library : Library) : T next :=
  field ← input "Искать по (title/author/year): ";
  let search_choice := str_lower (str_strip field) in
  if String.eqb search_choice "title" then
    title ← input "Введите название книги: ";
    show_found (find_books library (Some title) None None);;
    mret (Again library)
  else if String.eqb search_choice "author" then
    author ← input "Введите автора книги: ";
    show_found (find_books library None (Some author) None);;
    mret (Again library)
  else if String.eqb search_choice "year" then
    year_text ← input "Введите год издания книги: ";
    year ← int year_text;
    show_found (find_books library None None (Some year));;
    mret (Again library)
  else
    say "Неверный выбор.";;
    mret (Again library).

(** Choice 4. *)
Definition list_turn (library : Library) : T next :=
  show_books (list_books library);;
  mret (Again library).

(** Choice 5. *)
Definition status_turn `{PyBuiltins, PyInt} (library : Library) : T next :=
  id_text ← input "Введите ID книги: ";
  book_id ← int id_text;
  status_text ← input "Введите новый статус книги (в наличии/выдана): ";
  let new_status := str_lower (str_strip status_text) in
  if String.eqb new_status default_status
     || String.eqb new_status status_checked_out then
    library' ← call (change_status library book_id new_status);
    say "Статус книги обновлен.";;
    mret (Again library')
  else
    say "Неверный статус.";;
    mret (Again library).

(** The branch of the loop body for a choice. *)
Definition choose `{PyBuiltins, PyInt} (choice : string) (library : Library)
    : T next :=
  if String.eqb choice "1" then add_turn library
  else if String.eqb choice "2" then remove_turn library
  else if String.eqb choice "3" then search_turn library
  else if String.eqb choice "4" then list_turn library
  else if String.eqb choice "5" then status_turn library
  else if String.eqb choice "6" then mret Leave
  else say "Неверный выбор.";; mret (Again library).

(** The body of [while True]. *)
Definition turn `{PyBuiltins, PyInt} (library : Library) : T next :=
  say_all menu;;
  choice ← input "Выберите действие: ";
  choose choice library.

(** [while True: ...] run for at most [fuel] turns; [None] when the fuel
    does not suffice. *)
Fixpoint loop `{PyBuiltins, PyInt} (fuel : nat) (library : Library)
    (t : Terminal) : option (flow unit * Terminal) :=
  match fuel with
  | O => None
  | S fuel' =>
      match turn library t with
      | (Done (Again library'), t') => loop fuel' library' t'
      | (Done Leave, t') => Some (Done (), t')
      | (Crashed c, t') => Some (Crashed c, t')
      end
  end.

(** [main]: every turn reads a line, so one turn more than there are
    lines to read is fuel enough. *)
Definition main `{PyBuiltins, PyInt} (t : Terminal)
    : option (flow unit * Terminal) :=
  match call (Library_init "library.json") t with
  | (Done library, t') => loop (S (length (stdin t'))) library t'
  | (Crashed c, t') => Some (Crashed c, t')
  end.

(** ** Notions for the menu *)

(** [m] only takes lines from the front of the input. *)
Definition reads {A} (m : T A) : Prop :=
  ∀ t, ∃ used, stdin t = used ++ stdin (m t).2.

(** Every value [m] returns satisfies [Q]. *)
Definition returns {A} (m : T A) (Q : A → Prop) : Prop :=
  ∀ t a t', m t = (Done a, t') → Q a.

Definition status_known (s : string) : Prop :=
  s = default_status ∨ s = status_checked_out.

Definition conventional (self : Library) : Prop :=
  Forall (λ b, status_known (status b)) (books self).

(** The screen after the menu, the prompt for the choice and what the
    turn showed then. *)
Definition after_menu (sc items : list shown) : list shown :=
  sc ++ map Line menu ++ Prompt "Выберите действие: " :: items.

(** What a turn must leave of a store that kept the invariant and the
    conventional statuses. *)
Definition valid_after (library : Library) (n : next) : Prop :=
  match n with
  | Again library' =>
      well_formed library' ∧ conventional library'
      ∧ storage_file library' = storage_file library
  | Leave => True
  end.

(** A reference [int] for the console: a decimal numeral with an
    optional sign, white space around it allowed. *)
Module ReferenceConsole.

Definition numeral (ds : string) : option Z :=
  match Reference.span_digits ds with
  | (String _ _, EmptyString) => Some (Reference.digits_value ds)
  | _ => None
  end.

Definition int_of_text (text : string) : option Z :=
  match Reference.strip text with
  | String "-" ds => Z.opp <$> numeral ds
  | String "+" ds => numeral ds
  | ds => numeral ds
  end.

#[export] Instance int_builtin : PyInt := {| py_int := int_of_text |}.

End ReferenceConsole.

(** A terminal with the given lines to type, a blank screen and no
    file. *)
Definition typing (lines : list string) : Terminal :=
  {| stdin := lines; screen := []; disk := ∅ |}.

(** * Properties *)

Section Store.
Context `{PyBuiltins}.

Lemma py_max_spec (first : Z) (rest : list Z) :
  py_max first rest ∈ first :: rest
  ∧ ∀ x, x ∈ first :: rest → x ≤ py_max first rest.
Proof.
  unfold py_max. revert first.
  induction rest as [|y rest IH]; intros first; simpl.
  - split; [left|]. intros x Hx. apply list_elem_of_singleton in Hx. lia.
  - destruct (IH (if y >? first then y else first)) as [Hin Hub].
    split.
    + apply elem_of_cons in Hin as [Heq|Hin].
      * rewrite Heq. destruct (y >? first); [right; left | left].
      * right; right; exact Hin.
    + intros x Hx.
      assert (first ≤ (if y >? first then y else first)
              ∧ y ≤ (if y >? first then y else first)) as [Hf Hy]
        by (destruct (Z.gtb_spec y first); lia).
      apply elem_of_cons in Hx as [->|Hx].
      * etrans; [exact Hf|]. apply Hub. left.
      * apply elem_of_cons in Hx as [->|Hx].
        -- etrans; [exact Hy|]. apply Hub. left.
        -- apply Hub. right. exact Hx.
Qed.

Lemma generate_id_nonempty (self : Library) :
  books self ≠ [] →
  ∃ m, is_max_id m (books self) ∧ _generate_id self = 1 + m.
Proof.
  unfold _generate_id, is_max_id.
  destruct (books self) as [|book rest]; [done|]. intros _.
  destruct (py_max_spec (id book) (map id rest)) as [Hin Hub].
  exists (py_max (id book) (map id rest)). split; [split|lia].
  - change (id book :: map id rest) with (map id (book :: rest)) in Hin.
    apply list_elem_of_fmap in Hin as (b & -> & Hb). eauto.
  - intros b Hb. apply Hub.
    change (id book :: map id rest) with (map id (book :: rest)).
    apply list_elem_of_fmap. eauto.
Qed.

Lemma generate_id_above (self : Library) (b : Book) :
  b ∈ books self → id b < _generate_id self.
Proof.
  intros Hb.
  destruct (generate_id_nonempty self) as (m & [_ Hub] & ->).
  - intros Hnil. rewrite Hnil in Hb. by apply not_elem_of_nil in Hb.
  - specialize (Hub b Hb). lia.
Qed.

Lemma add_book_run (self : Library) (title author : string) (year : Z)
    (w : World) :
  let self' :=
    set_books self
      (books self
       ++ [Book_init title author year (_generate_id self) default_status]) in
  add_book self title author year w = (Return self', saved self' w).
Proof. reflexivity. Qed.



(** *** Lookup by identifier *)

Lemma find_from_Some (bs : list Book) :
  ∀ (start : nat) (book_id : Z) (pos : nat) (book : Book),
  find_from start bs book_id = Some (pos, book) →
  ∃ k, pos = (start + k)%nat ∧ bs !! k = Some book ∧ id book = book_id
       ∧ ∀ b, b ∈ take k bs → id b ≠ book_id.
Proof.
  induction bs as [|b bs IH]; intros start book_id pos book Hfind; [done|].
  simpl in Hfind. destruct (Z.eqb_spec (id b) book_id) as [Heq|Hne].
  - injection Hfind as <- <-. exists 0%nat.
    repeat split; [lia|done|]. intros b' Hb'. by apply not_elem_of_nil in Hb'.
  - destruct (IH _ _ _ _ Hfind) as (k & -> & Hk & Hid & Hbefore).
    exists (S k). repeat split; [lia|done|done|].
    intros b' Hb'. simpl in Hb'.
    apply elem_of_cons in Hb' as [->|Hb']; [done|by apply Hbefore].
Qed.

Lemma find_from_None (bs : list Book) (start : nat) (book_id : Z) :
  find_from start bs book_id = None ↔ ∀ b, b ∈ bs → id b ≠ book_id.
Proof.
  revert start. induction bs as [|b bs IH]; intros start; simpl.
  - split; [|done]. intros _ b Hb. by apply not_elem_of_nil in Hb.
  - destruct (Z.eqb_spec (id b) book_id) as [Heq|Hne].
    + split; [done|]. intros Hall. exfalso. apply (Hall b); [left|done].
    + rewrite IH. split.
      * intros Hall b' Hb'.
        apply elem_of_cons in Hb' as [->|Hb']; [done|by apply Hall].
      * intros Hall b' Hb'. apply Hall. by right.
Qed.

Lemma find_book_by_id_Some (self : Library) (book_id : Z) (pos : nat)
    (book : Book) :
  find_book_by_id self book_id = Some (pos, book) →
  books self !! pos = Some book ∧ id book = book_id
  ∧ ∀ b, b ∈ take pos (books self) → id b ≠ book_id.
Proof.
  intros Hfind. apply find_from_Some in Hfind as (k & -> & Hk).
  by rewrite Nat.add_0_l.
Qed.

Lemma find_book_by_id_None (self : Library) (book_id : Z) :
  find_book_by_id self book_id = None ↔ ∀ b, b ∈ books self → id b ≠ book_id.
Proof. apply find_from_None. Qed.

Lemma elem_of_delete_inv (bs : list Book) (pos : nat) (b : Book) :
  b ∈ delete pos bs → ∃ j, j ≠ pos ∧ bs !! j = Some b.
Proof.
  intros Hb. apply list_elem_of_lookup in Hb as [i Hi].
  destruct (decide (i < pos)%nat) as [Hlt|Hge].
  - rewrite list_lookup_delete_lt in Hi by done. exists i. split; [lia|done].
  - rewrite list_lookup_delete_ge in Hi by lia. exists (S i). split; [lia|done].
Qed.

(** C6. For all inputs and every store, [add_book] returns: it builds a
    book with the given title, author and year, the generated identifier
    and the status "в наличии", appends it at the end of the collection
    and saves the collection to the backing file. No input is rejected. *)
Theorem add_book_appends_available (self : Library) (t a : string) (y : Z)
    (w : World) :
  ∃ b self',
    add_book self t a y w = (Return self', saved self' w)
    ∧ storage_file self' = storage_file self
    ∧ books self' = books self ++ [b]
    ∧ title b = t ∧ author b = a ∧ year b = y
    ∧ id b = _generate_id self
    ∧ status b = "в наличии".
Proof.
  eexists _, _. split; [apply add_book_run|]. by repeat split.
Qed.

(** C5. For every store, [change_status] on an identifier some book
    carries overwrites the status of the first such book and nothing
    else: its identifier, title, author and year, the other books, their
    order and their number are as before, and the collection is saved.
    On an identifier no book carries it prints the not-found message and
    leaves the collection and the backing file as they were. The new
    status is any text: none is rejected. *)
Theorem change_status_frame (self : Library) (book_id : Z)
    (new_status : string) (w : World) :
  match find_book_by_id self book_id with
  | Some (pos, book) =>
      books self !! pos = Some book ∧ id book = book_id
      ∧ ∃ self' book',
          change_status self book_id new_status w
            = (Return self', saved self' w)
          ∧ storage_file self' = storage_file self
          ∧ length (books self') = length (books self)
          ∧ books self' !! pos = Some book'
          ∧ status book' = new_status
          ∧ id book' = id book ∧ title book' = title book
          ∧ author book' = author book ∧ year book' = year book
          ∧ ∀ j, j ≠ pos → books self' !! j = books self !! j
  | None =>
      (∀ b, b ∈ books self → id b ≠ book_id)
      ∧ change_status self book_id new_status w
          = (Return self,
             {| fs := fs w; stdout := stdout w ++ [msg_not_found book_id] |})
  end.
Proof.
  unfold change_status.
  destruct (find_book_by_id self book_id) as [[pos book]|] eqn:Hfind.
  - apply find_book_by_id_Some in Hfind as (Hpos & Hid & _).
    split; [done|]. split; [done|].
    eexists _, (set_status book new_status). split; [reflexivity|].
    simpl. repeat split.
    + apply length_insert.
    + apply list_lookup_insert_eq. by eapply lookup_lt_Some.
    + intros j Hj. by apply list_lookup_insert_ne.
  - split; [|done]. by apply find_book_by_id_None.
Qed.

Lemma remove_book_found (self : Library) (book_id : Z) (w : World)
    (pos : nat) (book : Book) :
  find_book_by_id self book_id = Some (pos, book) →
  let self' := set_books self (delete pos (books self)) in
  remove_book self book_id w = (Return self', saved self' w).
Proof. intros Hfind. unfold remove_book. by rewrite Hfind. Qed.

Lemma remove_book_missing (self : Library) (book_id : Z) (w : World) :
  find_book_by_id self book_id = None →
  remove_book self book_id w
  = (Return self,
     {| fs := fs w; stdout := stdout w ++ [msg_not_found book_id] |}).
Proof. intros Hfind. unfold remove_book. by rewrite Hfind. Qed.

(** C4, as the code has it. [remove_book] on an identifier some book
    carries removes the first such book (the others keep their order)
    and saves the collection; after it [find_book_by_id] finds nothing
    provided no other book carried the same identifier. On an identifier
    no book carries it prints the not-found message and leaves the
    collection and the backing file as they were. *)
Theorem remove_book_spec (self : Library) (book_id : Z) (w : World) :
  match find_book_by_id self book_id with
  | Some (pos, book) =>
      books self !! pos = Some book ∧ id book = book_id
      ∧ (∀ b, b ∈ take pos (books self) → id b ≠ book_id)
      ∧ ∃ self',
          remove_book self book_id w = (Return self', saved self' w)
          ∧ storage_file self' = storage_file self
          ∧ books self' = take pos (books self) ++ drop (S pos) (books self)
          ∧ S (length (books self')) = length (books self)
          ∧ ((∀ j b, books self !! j = Some b → id b = book_id → j = pos) →
             find_book_by_id self' book_id = None)
  | None =>
      (∀ b, b ∈ books self → id b ≠ book_id)
      ∧ remove_book self book_id w
          = (Return self,
             {| fs := fs w; stdout := stdout w ++ [msg_not_found book_id] |})
  end.
Proof.
  destruct (find_book_by_id self book_id) as [[pos book]|] eqn:Hfind.
  - pose proof (remove_book_found self book_id w pos book Hfind) as Hrun.
    apply find_book_by_id_Some in Hfind as (Hpos & Hid & Hfirst).
    split; [done|]. split; [done|]. split; [done|].
    eexists. split; [exact Hrun|]. simpl. repeat split.
    + apply delete_take_drop.
    + rewrite length_delete by eauto.
      apply lookup_lt_Some in Hpos. lia.
    + intros Honce. apply find_book_by_id_None. simpl. intros b Hb Hb_id.
      apply elem_of_delete_inv in Hb as (j & Hj & Hlook).
      apply Hj. by eapply Honce.
  - split; [by apply find_book_by_id_None|].
    by apply remove_book_missing.
Qed.

(** C10, as the code has it. When the maximum identifier [m] is carried
    by exactly one book, and [m] is at least 1 if that book is the only
    one, removing it with [remove_book] and then calling [add_book]
    assigns an identifier no greater than [m]: one more than the
    maximum of the remaining identifiers, or 1 when no book remains. *)
Theorem id_reused_after_removing_max (self : Library) (m : Z)
    (t a : string) (y : Z) (w : World) :
  is_max_id m (books self) →
  (∀ i j bi bj, books self !! i = Some bi → books self !! j = Some bj →
                id bi = m → id bj = m → i = j) →
  (length (books self) = 1%nat → 1 ≤ m) →
  ∃ self1 self2 nb,
    remove_book self m w = (Return self1, saved self1 w)
    ∧ add_book self1 t a y (saved self1 w)
        = (Return self2, saved self2 (saved self1 w))
    ∧ books self2 = books self1 ++ [nb]
    ∧ id nb ≤ m
    ∧ match books self1 with
      | [] => id nb = 1
      | _ :: _ => ∃ m', is_max_id m' (books self1) ∧ id nb = 1 + m'
      end.
Proof.
  intros [(bm & Hbm & Hbm_id) Hub] Honce Hsingle.
  destruct (find_book_by_id self m) as [[pos book]|] eqn:Hfind.
  2:{ rewrite find_book_by_id_None in Hfind. by destruct (Hfind bm Hbm). }
  pose proof (remove_book_found self m w pos book Hfind) as Hrun.
  apply find_book_by_id_Some in Hfind as (Hpos & Hid & _).
  set (self1 := set_books self (delete pos (books self))) in *.
  exists self1. do 2 eexists. split; [done|]. split; [apply add_book_run|].
  split; [done|]. simpl.
  destruct (delete pos (books self)) as [|b1 bs1] eqn:Hbs1.
  - unfold _generate_id. simpl. split; [|done].
    apply Hsingle. apply (f_equal length) in Hbs1.
    rewrite length_delete in Hbs1 by eauto. apply lookup_lt_Some in Hpos.
    simpl in Hbs1. lia.
  - destruct (generate_id_nonempty self1) as (m' & Hmax & ->); [done|].
    simpl in Hmax. split; [|eauto].
    destruct Hmax as [(b' & Hb' & Hb'_id) _].
    rewrite <- Hbs1 in Hb'.
    apply elem_of_delete_inv in Hb' as (j & Hj & Hlook).
    assert (id b' ≤ m) as Hle
      by (apply Hub; apply list_elem_of_lookup; eauto).
    assert (id b' ≠ m) as Hne.
    { intros Heq. apply Hj. by apply (Honce j pos b' book). }
    lia.
Qed.

(** *** The invariant of the stores the methods build

    Starting from an empty store, the mutating methods keep the
    identifiers positive and pairwise distinct. A store read from a file
    edited by hand need not be so. *)

Lemma generate_id_positive (self : Library) :
  Forall (λ i, 1 ≤ i) (ids self) → 1 ≤ _generate_id self.
Proof.
  intros Hpos. destruct (books self) as [|b bs] eqn:Hbs.
  - unfold _generate_id. by rewrite Hbs.
  - destruct (generate_id_nonempty self) as (m & [(bm & Hbm & <-) _] & ->);
      [by rewrite Hbs|].
    rewrite Forall_forall in Hpos. 
    assert (1 ≤ id bm); [|lia].
    apply Hpos. unfold ids. apply list_elem_of_fmap. eauto.
Qed.

Lemma api_step_well_formed (self self' : Library) :
  well_formed self → api_step self self' → well_formed self'.
Proof.
  intros [Hdup Hpos] Hstep. destruct Hstep as [t a y w w' self' Hrun
    | book_id w w' self' Hrun | book_id new_status w w' self' Hrun].
  - rewrite add_book_run in Hrun. injection Hrun as <- _.
    unfold well_formed, ids in *. simpl. rewrite map_app. simpl. split.
    + apply NoDup_app. split; [done|]. split; [|apply NoDup_singleton].
      intros i Hi Hnew. apply list_elem_of_singleton in Hnew as ->.
      apply list_elem_of_fmap in Hi as (b & Hb & Hin).
      pose proof (generate_id_above self b Hin). lia.
    + apply Forall_app. split; [done|]. apply Forall_singleton.
      by apply generate_id_positive.
  - destruct (find_book_by_id self book_id) as [[pos book]|] eqn:Hfind.
    + rewrite (remove_book_found self book_id w pos book Hfind) in Hrun.
      injection Hrun as <- _.
      assert (ids (set_books self (delete pos (books self)))
                `sublist_of` ids self) as Hsub
        by apply fmap_sublist, sublist_delete.
      split; [by eapply sublist_NoDup|].
      rewrite Forall_forall in Hpos |- *. intros i Hi.
      by apply Hpos, (sublist_subseteq _ _ Hsub).
    + rewrite (remove_book_missing self book_id w Hfind) in Hrun.
      by injection Hrun as <- _.
  - unfold change_status in Hrun.
    destruct (find_book_by_id self book_id) as [[pos book]|] eqn:Hfind.
    + apply find_book_by_id_Some in Hfind as (Hpos' & _ & _).
      injection Hrun as <- _. unfold well_formed.
      assert (ids (set_books self (<[pos:=set_status book new_status]> (books self)))
              = ids self) as ->; [|done].
      unfold ids. simpl. rewrite list_fmap_insert. simpl.
      apply list_insert_id. by rewrite list_lookup_fmap, Hpos'.
    + by injection Hrun as <- _.
Qed.

Lemma reachable_well_formed (path : string) (self : Library) :
  rtc api_step {| storage_file := path; books := [] |} self → well_formed self.
Proof.
  apply (rtc_ind_r well_formed).
  - split; [apply NoDup_nil_2|apply Forall_nil_2].
  - intros y z _ Hstep Hy. by apply (api_step_well_formed y).
Qed.


(** In a store that keeps the invariant, a maximum identifier is at
    least 1. *)
Lemma well_formed_max_positive (self : Library) (m : Z) :
  well_formed self → is_max_id m (books self) → 1 ≤ m.
Proof.
  intros [_ Hpos] [(b & Hb & <-) _]. rewrite Forall_forall in Hpos.
  apply Hpos. unfold ids. apply list_elem_of_fmap. eauto.
Qed.

(** *** Search *)

Lemma append_cons (c : ascii) (s rest : string) :
  String c s +:+ rest = String c (s +:+ rest).
Proof. reflexivity. Qed.

Lemma append_empty (rest : string) : EmptyString +:+ rest = rest.
Proof. reflexivity. Qed.

Lemma prefix_occurs (p s : string) :
  String.prefix p s = true ↔ ∃ rest, s = p +:+ rest.
Proof.
  revert s. induction p as [|c p IH]; intros s; simpl.
  - split; [eauto|]. by destruct s.
  - destruct s as [|c' s]; simpl.
    + split; [done|]. by intros [rest ?].
    + destruct (ascii_dec c c') as [->|Hne].
      * rewrite IH. split; intros [rest Hrest]; exists rest;
          rewrite append_cons in *; congruence.
      * split; [done|]. intros [rest Hrest].
        rewrite append_cons in Hrest. congruence.
Qed.

Lemma str_in_unfold (needle hay : string) :
  str_in needle hay
  = if String.prefix needle hay then true
    else match hay with
         | EmptyString => false
         | String _ hay' => str_in needle hay'
         end.
Proof. by destruct hay. Qed.

Lemma str_in_occurs (needle hay : string) :
  str_in needle hay = true ↔ occurs_in needle hay.
Proof.
  unfold occurs_in. induction hay as [|c hay IH]; rewrite str_in_unfold.
  - destruct (String.prefix needle EmptyString) eqn:Hp.
    + apply prefix_occurs in Hp as [rest Hrest].
      split; [|done]. intros _. by exists EmptyString, rest.
    + split; [done|]. intros (before & rest & Heq).
      destruct before; [|done]. rewrite append_empty in Heq.
      assert (String.prefix needle EmptyString = true) as Hp'
        by (apply prefix_occurs; eauto).
      congruence.
  - destruct (String.prefix needle (String c hay)) eqn:Hp.
    + apply prefix_occurs in Hp as [rest Hrest].
      split; [|done]. intros _. by exists EmptyString, rest.
    + rewrite IH. split.
      * intros (before & rest & ->). by exists (String c before), rest.
      * intros (before & rest & Heq). destruct before as [|c' before].
        -- rewrite append_empty in Heq.
           assert (String.prefix needle (String c hay) = true) as Hp'
             by (apply prefix_occurs; eauto).
           congruence.
        -- rewrite append_cons in Heq. injection Heq as _ ->. eauto.
Qed.

Lemma meetsb_meets (by_title by_author : option string) (by_year : option Z)
    (b : Book) :
  meetsb by_title by_author by_year b = true ↔ meets by_title by_author by_year b.
Proof.
  unfold meetsb, meets, contains_ci, title_test, author_test, year_test,
    truthy_str, truthy_int.
  rewrite !andb_true_iff.
  destruct by_title as [t|], by_author as [a|], by_year as [y|];
    repeat match goal with
           | |- context [String.eqb ?x EmptyString] =>
               destruct (String.eqb_spec x EmptyString)
           | |- context [?y =? 0] => destruct (Z.eqb_spec y 0)
           end;
    simpl; rewrite ?str_in_occurs, ?Z.eqb_eq;
    (split;
     [ intros [[Ht Ha] Hy]; repeat split; intros ? Heq ?; by simplify_eq
     | intros (Ht & Ha & Hy); repeat split; eauto ]).
Qed.

Lemma filter_filter_andb {A} (p q : A → bool) (l : list A) :
  List.filter q (List.filter p l) = List.filter (λ x, p x && q x) l.
Proof.
  induction l as [|x l IH]; [done|]. simpl.
  destruct (p x); simpl; [|done]. destruct (q x); by rewrite IH.
Qed.

Lemma filter_all {A} (p : A → bool) (l : list A) :
  (∀ x, p x = true) → List.filter p l = l.
Proof.
  intros Hp. induction l as [|x l IH]; [done|]. simpl. by rewrite Hp, IH.
Qed.

Lemma filter_sublist {A} (p : A → bool) (l : list A) :
  List.filter p l `sublist_of` l.
Proof.
  induction l as [|x l IH]; [done|]. simpl. destruct (p x); by constructor.
Qed.

(** A guarded comprehension of [find_books] is one filter. *)
Lemma guarded_filter {C} (criterion : option C) (guard : C → bool)
    (test : C → Book → bool) (l : list Book) :
  match criterion with
  | Some c => if guard c then List.filter (test c) l else l
  | None => l
  end
  = List.filter (λ b, match criterion with
                      | Some c => negb (guard c) || test c b
                      | None => true
                      end) l.
Proof.
  destruct criterion as [c|]; [|by rewrite filter_all].
  destruct (guard c); [done|]. by rewrite filter_all.
Qed.

(** C2, as the code has it. For every store and every combination of
    criteria, [find_books] returns exactly the books that meet all the
    criteria that count, a criterion counting when it is given and
    truthy: a non-empty title or author, matched as a case-insensitive
    substring, and a non-zero year, matched by equality. The result is
    the collection filtered, so it keeps the order of the collection;
    without criteria it is the whole collection; when no book meets the
    criteria it is the empty list. *)
Theorem find_books_exact (self : Library) (by_title by_author : option string)
    (by_year : option Z) :
  find_books self by_title by_author by_year
    = List.filter (meetsb by_title by_author by_year) (books self)
  ∧ (∀ b, b ∈ find_books self by_title by_author by_year
          ↔ b ∈ books self ∧ meets by_title by_author by_year b)
  ∧ find_books self by_title by_author by_year `sublist_of` books self
  ∧ find_books self None None None = books self
  ∧ ((∀ b, b ∈ books self → ¬ meets by_title by_author by_year b) →
     find_books self by_title by_author by_year = []).
Proof.
  assert (find_books self by_title by_author by_year
          = List.filter (meetsb by_title by_author by_year) (books self)) as Heq.
  { unfold find_books. cbv zeta.
    rewrite (guarded_filter by_title truthy_str title_test),
      (guarded_filter by_author truthy_str author_test),
      (guarded_filter by_year truthy_int year_test).
    rewrite !filter_filter_andb. apply List.filter_ext. intros b.
    unfold meetsb. by rewrite andb_assoc. }
  assert (∀ b, b ∈ find_books self by_title by_author by_year
               ↔ b ∈ books self ∧ meets by_title by_author by_year b) as Hin.
  { intros b. rewrite Heq, list_elem_of_In, filter_In, <- list_elem_of_In.
    by rewrite meetsb_meets. }
  split; [done|]. split; [done|]. split; [|split; [done|]].
  - rewrite Heq. apply filter_sublist.
  - intros Hnone.
    destruct (find_books self by_title by_author by_year) as [|b bs] eqn:E;
      [done|].
    destruct (Hin b) as [Hb _]. destruct Hb as [Hb Hmeets]; [left|].
    by destruct (Hnone b).
Qed.

(** Where the empty string lowers to itself, an empty title or author
    is met by every book: only a year of [0] separates the criteria that
    count from the criteria that are given. *)
Lemma meets_given_iff (by_title by_author : option string) (by_year : option Z)
    (b : Book) :
  str_lower EmptyString = EmptyString →
  by_year ≠ Some 0 →
  meets by_title by_author by_year b ↔ meets_given by_title by_author by_year b.
Proof.
  intros Hlower Hyear. unfold meets, meets_given, contains_ci.
  assert (∀ hay, occurs_in (str_lower EmptyString) hay) as Hempty.
  { intros hay. rewrite Hlower. by exists EmptyString, hay. }
  split; intros (Ht & Ha & Hy); repeat split; eauto.
  - intros t ->. destruct (decide (t = EmptyString)) as [->|]; eauto.
  - intros a ->. destruct (decide (a = EmptyString)) as [->|]; eauto.
  - intros y ->. apply Hy; [done|]. congruence.
Qed.

(** C9. A falsy criterion is treated as an omitted one: the empty
    string as title or as author, and [0] as year, give the result of
    the search without that criterion. In particular a search by the
    empty title, and a search by year [0], return every book. *)
Theorem falsy_criteria_are_omitted (self : Library)
    (by_title by_author : option string) (by_year : option Z) :
  find_books self (Some EmptyString) by_author by_year
    = find_books self None by_author by_year
  ∧ find_books self by_title (Some EmptyString) by_year
    = find_books self by_title None by_year
  ∧ find_books self by_title by_author (Some 0)
    = find_books self by_title by_author None
  ∧ find_books self (Some EmptyString) None None = books self
  ∧ find_books self None None (Some 0) = books self.
Proof. by repeat split. Qed.

(** *** Persistence *)

Lemma from_dict_to_dict (b : Book) : from_dict (to_dict b) = Return b.
Proof. by destruct b. Qed.

Lemma mapM_from_dict_to_dict (bs : list Book) :
  mapM from_dict (map to_dict bs) = Return bs.
Proof.
  induction bs as [|b bs IH]; [done|].
  change (mapM from_dict (map to_dict (b :: bs)))
    with (y ← from_dict (to_dict b);
          k ← mapM from_dict (map to_dict bs); mret (y :: k)).
  by rewrite from_dict_to_dict, IH.
Qed.



(** What [load_books] does on a file that exists and is not blank, by
    the result of decoding it. *)
Lemma load_books_decoded (self : Library) (w : World) (text : string) :
  fs w !! storage_file self = Some text →
  truthy_str (str_strip text) = true →
  load_books self w
  = match json_loads (str_strip text) with
    | None => (Return self, decode_reported w)
    | Some value =>
        match records ← iterate value; mapM from_dict records with
        | Return bs => (Return (set_books self bs), w)
        | Raise JSONDecodeError => (Return self, decode_reported w)
        | Raise e => (Raise e, w)
        | Untyped => (Untyped, w)
        end
    end.
Proof.
  intros Hfile Hdata.
  unfold load_books, try_except_JSONDecodeError, path_exists, read_file, loads,
    mbind, M_bind, mret, M_ret, raise, lift.
  rewrite bool_decide_eq_true_2 by eauto.
  rewrite Hfile. cbn beta iota zeta. rewrite Hdata.
  destruct (json_loads (str_strip text)) as [value|]; [|done].
  destruct (iterate value) as [records|e|]; simpl; [|by destruct e|done].
  destruct (mapM from_dict records) as [bs|e|]; simpl; [done|by destruct e|done].
Qed.

(** A missing file, and a file that is blank once stripped, leave the
    store as it is and print nothing. *)
Lemma load_books_absent (self : Library) (w : World) :
  fs w !! storage_file self = None → load_books self w = (Return self, w).
Proof.
  intros Hfile. unfold load_books, path_exists, mbind, M_bind, mret, M_ret.
  rewrite bool_decide_eq_false_2; [done|].
  rewrite Hfile. by intros [? ?].
Qed.

Lemma load_books_blank (self : Library) (w : World) (text : string) :
  fs w !! storage_file self = Some text →
  truthy_str (str_strip text) = false →
  load_books self w = (Return self, w).
Proof.
  intros Hfile Hdata.
  unfold load_books, try_except_JSONDecodeError, path_exists, read_file,
    mbind, M_bind, mret, M_ret.
  rewrite bool_decide_eq_true_2 by eauto.
  rewrite Hfile. cbn beta iota zeta. by rewrite Hdata.
Qed.

(** Loading, in a fresh store, the file [save_books] has just written. *)
Lemma load_after_save (self : Library) (w : World) :
  reads_back (JArr (map to_dict (books self))) →
  Library_init (storage_file self) (saved self w) = (Return self, saved self w).
Proof.
  intros [Hdata Hloads]. unfold Library_init.
  rewrite (load_books_decoded _ _ (json_dumps (JArr (map to_dict (books self)))));
    [|apply lookup_insert_eq|done].
  rewrite Hloads. simpl. rewrite mapM_from_dict_to_dict.
  by destruct self.
Qed.

(** C3. Saving a store and then building a fresh store over the same
    file gives back the same collection: the same books, field by
    field, in the same order, provided the [json] module reads back the
    list of dicts it wrote. *)
Theorem save_then_load_roundtrip (self : Library) (w : World) :
  reads_back (JArr (map to_dict (books self))) →
  ∃ w1,
    save_books self w = (Return (), w1)
    ∧ w1 = saved self w
    ∧ Library_init (storage_file self) w1 = (Return self, w1).
Proof.
  intros Hback. exists (saved self w). split; [done|]. split; [done|].
  by apply load_after_save.
Qed.

(** C7. Building a store over a file whose text is not blank and is
    rejected by [json.loads] returns: the failure is caught, exactly one
    line, the decode diagnostic, is printed, the file is left as it is,
    and the collection is empty. The store is usable: [add_book] on it
    returns, with the new book, of identifier 1, as the only one. *)
Theorem invalid_json_recovered (path text : string) (w : World) :
  fs w !! path = Some text →
  truthy_str (str_strip text) = true →
  json_loads (str_strip text) = None →
  let empty := {| storage_file := path; books := [] |} in
  Library_init path w = (Return empty, decode_reported w)
  ∧ stdout (decode_reported w) = stdout w ++ [msg_decode_error]
  ∧ fs (decode_reported w) = fs w
  ∧ ∀ (t a : string) (y : Z),
      let self' := set_books empty [Book_init t a y 1 default_status] in
      add_book empty t a y (decode_reported w)
      = (Return self', saved self' (decode_reported w)).
Proof.
  intros Hfile Hdata Hloads empty. split; [|done].
  unfold Library_init. rewrite (load_books_decoded _ _ text) by done.
  by rewrite Hloads.
Qed.


End Store.

(** ** The reference [json] reads back what it writes

    The encoder and the decoder of the reference implementation are
    inverse on every collection of books: on such a text the decoder's
    string scanner undoes [escape], its number scanner reads [str_of_int]
    back, and a fuel of twice the length of the text is enough. *)
Module ReferenceFacts.
Import Reference.

Lemma append_assoc_str (a b c : string) : (a +:+ b) +:+ c = a +:+ (b +:+ c).
Proof. induction a as [|x a IH]; [done|]. rewrite !append_cons. by rewrite IH. Qed.

Lemma length_append_str (a b : string) :
  String.length (a +:+ b) = (String.length a + String.length b)%nat.
Proof. induction a as [|x a IH]; [done|]. rewrite append_cons. simpl. by rewrite IH. Qed.

(** White space *)

Lemma rstrip_append (a b : string) :
  rstrip b = b → b ≠ EmptyString → rstrip (a +:+ b) = a +:+ b.
Proof.
  intros Hb Hne. induction a as [|c a IH]; [done|].
  rewrite append_cons. simpl. rewrite IH. destruct (a +:+ b) eqn:E; [|done].
  destruct a; [rewrite append_empty in E|rewrite append_cons in E]; congruence.
Qed.

Lemma skip_ws_spaces (n : nat) (s : string) :
  skip_ws (spaces n +:+ s) = skip_ws s.
Proof. induction n as [|n IH]; [done|]. simpl spaces. rewrite append_cons. exact IH. Qed.

Lemma skip_ws_break (level : nat) (s : string) :
  skip_ws (break level +:+ s) = skip_ws s.
Proof. unfold break. rewrite append_cons. apply skip_ws_spaces. Qed.

(** String literals *)

Lemma escape_cons (c : ascii) (s : string) :
  escape (String c s) = escape_char c +:+ escape s.
Proof. reflexivity. Qed.

Lemma scan_string_escape (s rest : string) :
  scan_string (escape s +:+ String quote rest) = Some (s, rest).
Proof.
  induction s as [|c s IH]; [done|].
  rewrite escape_cons, append_assoc_str.
  remember (escape s +:+ String quote rest) as tail eqn:Htail. clear Htail.
  destruct c as [[] [] [] [] [] [] [] []];
    match goal with
    | |- context [escape_char ?c] =>
        let e := eval vm_compute in (escape_char c) in
        change (escape_char c) with e
    end;
    rewrite ?append_cons, append_empty; simpl; rewrite IH; reflexivity.
Qed.

(** Numbers *)

Lemma span_digits_uint (d : Decimal.uint) (c : ascii) (r : string) :
  delimiter c →
  span_digits (NilEmpty.string_of_uint d +:+ String c r)
  = (NilEmpty.string_of_uint d, String c r).
Proof.
  intros Hc. induction d; simpl NilEmpty.string_of_uint;
    rewrite ?append_cons, ?append_empty; simpl; rewrite ?IHd; try reflexivity.
  by destruct Hc as [-> | ->].
Qed.

Lemma span_digits_cons (c : ascii) (s : string) :
  is_digit c = true →
  span_digits (String c s) = (String c (span_digits s).1, (span_digits s).2).
Proof. intros Hc. simpl. rewrite Hc. by destruct (span_digits s). Qed.

Lemma digits_value_uint (d : Decimal.uint) :
  digits_value (NilEmpty.string_of_uint d) = Z.of_uint d.
Proof. unfold digits_value. by rewrite NilEmpty.usu. Qed.

Lemma to_uint_head (p : positive) :
  Decimal.nzhead (Pos.to_uint p) = Pos.to_uint p.
Proof.
  pose proof (DecimalPos.Unsigned.to_of (Pos.to_uint p)) as Hnorm.
  rewrite DecimalPos.Unsigned.of_to in Hnorm. simpl in Hnorm.
  rewrite <- DecimalFacts.unorm_nzhead; [done|].
  intros Hnil. apply DecimalFacts.unorm_0 in Hnil.
  apply (DecimalPos.Unsigned.to_uint_nonzero p). congruence.
Qed.

Lemma scan_number_uint (d : Decimal.uint) (c : ascii) (r : string) :
  Decimal.nzhead d = d → d ≠ Decimal.Nil → delimiter c →
  scan_scalar (NilEmpty.string_of_uint d +:+ String c r)
  = Some (JInt (Z.of_uint d), String c r)
  ∧ scan_scalar (String "-" (NilEmpty.string_of_uint d +:+ String c r))
  = Some (JInt (- Z.of_uint d), String c r).
Proof.
  intros Hhead Hnil Hc.
  destruct d; [done| by destruct (DecimalFacts.nzhead_nonzero d d) |..].
  all: rewrite <- digits_value_uint.
  all: simpl NilEmpty.string_of_uint; rewrite append_cons.
  all: unfold scan_scalar, scan_number, scan_int_part; simpl after.
  all: rewrite span_digits_cons by reflexivity.
  all: rewrite span_digits_uint by done.
  all: destruct Hc as [-> | ->]; split; reflexivity.
Qed.
Lemma scan_scalar_int (n : Z) (c : ascii) (r : string) :
  delimiter c →
  scan_scalar (str_of_int n +:+ String c r) = Some (JInt n, String c r).
Proof.
  intros Hc. destruct n as [|p|p].
  - by destruct Hc as [-> | ->].
  - pose proof (DecimalPos.Unsigned.to_uint_nonnil p) as Hnil.
    destruct (scan_number_uint (Pos.to_uint p) c r (to_uint_head p) Hnil Hc)
      as [Hpos _].
    unfold str_of_int. simpl Z.to_int. unfold NilZero.string_of_int, NilZero.string_of_uint.
    destruct (Pos.to_uint p) eqn:E; [done|..]; rewrite Hpos;
      unfold Z.of_uint; rewrite <- E, DecimalPos.Unsigned.of_to; reflexivity.
  - pose proof (DecimalPos.Unsigned.to_uint_nonnil p) as Hnil.
    destruct (scan_number_uint (Pos.to_uint p) c r (to_uint_head p) Hnil Hc)
      as [_ Hneg].
    unfold str_of_int. simpl Z.to_int. unfold NilZero.string_of_int, NilZero.string_of_uint.
    rewrite append_cons.
    destruct (Pos.to_uint p) eqn:E; [done|..]; rewrite Hneg;
      unfold Z.of_uint; rewrite <- E, DecimalPos.Unsigned.of_to; reflexivity.
Qed.

Lemma str_of_int_head (n : Z) :
  ∃ h t, str_of_int n = String h t ∧ (is_digit h = true ∨ h = "-"%char).
Proof.
  destruct n as [|p|p].
  - exists "0"%char, EmptyString. by split; [|left].
  - pose proof (DecimalPos.Unsigned.to_uint_nonnil p) as Hnil.
    unfold str_of_int. simpl Z.to_int. unfold NilZero.string_of_int, NilZero.string_of_uint.
    destruct (Pos.to_uint p); [done|..]; simpl; eexists _, _; by split; [|left].
  - eexists _, _. by split; [|right].
Qed.

(** Values *)

Lemma quoted_append (s rest : string) :
  quoted s +:+ rest = String quote (escape s +:+ String quote rest).
Proof.
  unfold quoted. by rewrite append_cons, append_assoc_str, append_cons, append_empty.
Qed.

Lemma parse_value_str (f : nat) (s rest : string) :
  parse (S f) Value (String " " (quoted s +:+ rest)) = Some (JStr s, rest).
Proof.
  rewrite quoted_append.
  remember (escape s +:+ String quote rest) as body eqn:Hbody.
  simpl. subst body. by rewrite scan_string_escape.
Qed.

Lemma parse_value_scalar (f : nat) (h : ascii) (t : string) :
  is_digit h = true ∨ h = "-"%char →
  parse (S f) Value (String " " (String h t)) = scan_scalar (String h t).
Proof.
  intros Hh. cbn [parse skip_ws]. 
  assert (is_json_space " " = true) as -> by reflexivity.
  cbn [skip_ws].
  destruct h as [[] [] [] [] [] [] [] []];
    try (destruct Hh as [Hh|Hh]; discriminate Hh); reflexivity.
Qed.

Lemma parse_value_int (f : nat) (n : Z) (c : ascii) (r : string) :
  delimiter c →
  parse (S f) Value (String " " (str_of_int n +:+ String c r))
  = Some (JInt n, String c r).
Proof.
  intros Hc. rewrite <- (scan_scalar_int n c r Hc).
  destruct (str_of_int_head n) as (h & t & -> & Hh).
  rewrite append_cons. by apply parse_value_scalar.
Qed.
(** Records *)

Lemma parse_member (f : nat) (level : nat) (k : string)
    (acc : list (string * json)) (vtext : string) :
  parse (S f) (Members acc) (break level +:+ quoted k +:+ ": " +:+ vtext)
  = '(v, rest3) ← parse f Value (String " " vtext);
    match skip_ws rest3 with
    | String "," rest' => parse f (Members (dict_set k v acc)) rest'
    | String "}" rest' => Some (JObj (dict_set k v acc), rest')
    | _ => None
    end.
Proof.
  cbn [parse]. rewrite skip_ws_break, quoted_append.
  change (": " +:+ vtext) with (String ":" (String " " vtext)).
  remember (escape k +:+ String quote (String ":" (String " " vtext))) as body.
  cbn [skip_ws]. change (is_json_space quote) with false. cbv iota.
  change (Ascii.eqb quote quote) with true. cbv iota.
  subst body. rewrite scan_string_escape. reflexivity.
Qed.

Lemma dump_to_dict (level : nat) (b : Book) (rest : string) :
  dump level (to_dict b) +:+ rest
  = String "{"
      (break (S level) +:+ quoted "id" +:+ ": " +:+ str_of_int (id b)
       +:+ String "," (break (S level) +:+ quoted "title" +:+ ": " +:+ quoted (title b)
       +:+ String "," (break (S level) +:+ quoted "author" +:+ ": " +:+ quoted (author b)
       +:+ String "," (break (S level) +:+ quoted "year" +:+ ": " +:+ str_of_int (year b)
       +:+ String "," (break (S level) +:+ quoted "status" +:+ ": " +:+ quoted (status b)
       +:+ break level +:+ String "}" rest))))).
Proof.
  unfold to_dict. cbn [dump map String.concat fst snd].
  rewrite !append_assoc_str, !append_cons, !append_empty.
  reflexivity.
Qed.
Lemma parse_member_int (f level : nat) (k : string) (n : Z)
    (acc : list (string * json)) (more : string) :
  parse (S (S f)) (Members acc)
    (break level +:+ quoted k +:+ ": " +:+ str_of_int n +:+ String "," more)
  = parse (S f) (Members (dict_set k (JInt n) acc)) more.
Proof.
  rewrite parse_member, parse_value_int by (by left). reflexivity.
Qed.

Lemma parse_member_str (f level : nat) (k s : string)
    (acc : list (string * json)) (more : string) :
  parse (S (S f)) (Members acc)
    (break level +:+ quoted k +:+ ": " +:+ quoted s +:+ String "," more)
  = parse (S f) (Members (dict_set k (JStr s) acc)) more.
Proof. rewrite parse_member, parse_value_str. reflexivity. Qed.

Lemma parse_member_last (f level outer : nat) (k s : string)
    (acc : list (string * json)) (rest : string) :
  parse (S (S f)) (Members acc)
    (break level +:+ quoted k +:+ ": " +:+ quoted s
     +:+ break outer +:+ String "}" rest)
  = Some (JObj (dict_set k (JStr s) acc), rest).
Proof.
  rewrite parse_member, parse_value_str.
  cbn [mbind option_bind]. rewrite skip_ws_break. reflexivity.
Qed.

Lemma parse_value_object (f level inner : nat) (k more : string) :
  parse (S f) Value
    (break level +:+ String "{" (break inner +:+ quoted k +:+ more))
  = parse f (Members []) (break inner +:+ quoted k +:+ more).
Proof.
  cbn [parse]. rewrite skip_ws_break.
  change (skip_ws (String "{" ?s)) with (String "{" s).
  cbv iota. change (Ascii.eqb "{" "[") with false.
  change (Ascii.eqb "{" "{") with true. cbv iota.
  rewrite skip_ws_break, quoted_append. reflexivity.
Qed.

Lemma parse_record (f level : nat) (b : Book) (rest : string) :
  parse (7 + f) Value (break level +:+ dump level (to_dict b) +:+ rest)
  = Some (to_dict b, rest).
Proof.
  rewrite dump_to_dict. change (7 + f)%nat with (S (S (S (S (S (S (S f))))))).
  rewrite parse_value_object.
  rewrite parse_member_int, parse_member_str, parse_member_str,
    parse_member_int, parse_member_last.
  reflexivity.
Qed.
(** Lists of records *)

Lemma parse_element (f : nat) (acc : list json) (s : string) :
  parse (S f) (Elements acc) s
  = '(v, rest) ← parse f Value s;
    match skip_ws rest with
    | String "," rest' => parse f (Elements (acc ++ [v])) rest'
    | String "]" rest' => Some (JArr (acc ++ [v]), rest')
    | _ => None
    end.
Proof. reflexivity. Qed.

Lemma concat_cons2 (sep x y : string) (l : list string) :
  String.concat sep (x :: y :: l) = x +:+ sep +:+ String.concat sep (y :: l).
Proof. reflexivity. Qed.

Lemma parse_elements (level outer : nat) (bs : list Book) :
  ∀ (b : Book) (acc : list json) (f : nat) (rest : string),
  parse (length bs + 8 + f) (Elements acc)
    (break level
     +:+ String.concat ("," +:+ break level)
           (map (dump level) (map to_dict (b :: bs)))
     +:+ break outer +:+ String "]" rest)
  = Some (JArr (acc ++ map to_dict (b :: bs)), rest).
Proof.
  induction bs as [|b' bs IH]; intros b acc f rest.
  - change (length [] + 8 + f)%nat with (S (7 + f)).
    rewrite parse_element. cbn [map String.concat].
    rewrite parse_record. cbn [mbind option_bind].
    rewrite skip_ws_break. reflexivity.
  - replace (length (b' :: bs) + 8 + f)%nat
      with (S (7 + (length bs + 1 + f)))%nat by (simpl; lia).
    rewrite parse_element.
    change (map (dump level) (map to_dict (b :: b' :: bs)))
      with (dump level (to_dict b)
            :: dump level (to_dict b')
            :: map (dump level) (map to_dict bs)).
    rewrite concat_cons2, !append_assoc_str, append_cons, append_empty.
    rewrite parse_record. cbn [mbind option_bind].
    change (skip_ws (String "," ?s)) with (String "," s). cbv iota.
    replace (7 + (length bs + 1 + f))%nat with (length bs + 8 + f)%nat by lia.
    change (dump level (to_dict b') :: map (dump level) (map to_dict bs))
      with (map (dump level) (map to_dict (b' :: bs))).
    rewrite IH. by rewrite <- app_assoc.
Qed.

Lemma parse_value_array (f : nat) (h : ascii) (t rest : string) :
  skip_ws rest = String h t → h ≠ "]"%char →
  parse (S f) Value (String "[" rest) = parse f (Elements []) rest.
Proof.
  intros Hrest Hh. cbn [parse].
  change (skip_ws (String "[" rest)) with (String "[" rest). cbv iota.
  change (Ascii.eqb "[" "[") with true. cbv iota. rewrite Hrest.
  destruct h as [[] [] [] [] [] [] [] []]; done.
Qed.

Lemma length_concat_records (sep : string) (f : Book → string)
    (b : Book) (bs : list Book) :
  (1 ≤ String.length sep)%nat →
  (length bs ≤ String.length (String.concat sep (map f (b :: bs))))%nat.
Proof.
  intros Hsep. revert b. induction bs as [|b' bs IH]; intros b; [simpl; lia|].
  change (map f (b :: b' :: bs)) with (f b :: f b' :: map f bs).
  rewrite concat_cons2, !length_append_str.
  specialize (IH b'). simpl in *. lia.
Qed.

Lemma rstrip_append_ne (a b : string) :
  rstrip b = b ∧ b ≠ EmptyString →
  rstrip (a +:+ b) = a +:+ b ∧ a +:+ b ≠ EmptyString.
Proof.
  intros [Hb Hne]. split; [by apply rstrip_append|].
  destruct a; [by rewrite append_empty|by rewrite append_cons].
Qed.

Lemma dumps_books_cons (b : Book) (bs : list Book) :
  dumps (JArr (map to_dict (b :: bs)))
  = String "["
      (break 1
       +:+ String.concat ("," +:+ break 1)
             (map (dump 1) (map to_dict (b :: bs)))
       +:+ break 0 +:+ String "]" EmptyString).
Proof. reflexivity. Qed.

Lemma strip_dumps_books (bs : list Book) :
  strip (dumps (JArr (map to_dict bs))) = dumps (JArr (map to_dict bs)).
Proof.
  destruct bs as [|b bs]; [reflexivity|].
  rewrite dumps_books_cons. unfold strip.
  change (lstrip (String "[" ?s)) with (String "[" s).
  change (String "[" ?s) with ("[" +:+ s).
  apply rstrip_append_ne. do 3 apply rstrip_append_ne. done.
Qed.

Lemma concat_records_head (level : nat) (b : Book) (bs : list Book)
    (tail : string) :
  ∃ t, String.concat ("," +:+ break level)
         (map (dump level) (map to_dict (b :: bs))) +:+ tail
       = String "{" t.
Proof.
  destruct bs as [|b' bs].
  - cbn [map String.concat]. rewrite dump_to_dict. eauto.
  - change (map (dump level) (map to_dict (b :: b' :: bs)))
      with (dump level (to_dict b)
            :: dump level (to_dict b')
            :: map (dump level) (map to_dict bs)).
    rewrite concat_cons2, append_assoc_str, dump_to_dict. eauto.
Qed.

Lemma loads_dumps_books (bs : list Book) :
  loads (dumps (JArr (map to_dict bs))) = Some (JArr (map to_dict bs)).
Proof.
  destruct bs as [|b bs]; [reflexivity|].
  unfold loads.
  assert (∃ f, (2 * String.length (dumps (JArr (map to_dict (b :: bs)))) + 2
                = S (length bs + 8 + f))%nat) as [f ->].
  { rewrite dumps_books_cons.
    pose proof (length_concat_records ("," +:+ break 1)
                  (λ x, dump 1 (to_dict x)) b bs) as Hlen.
    rewrite <- map_map in Hlen.
    exists (2 * String.length (break 1 +:+ String.concat ("," +:+ break 1)
                                 (map (dump 1) (map to_dict (b :: bs)))
                               +:+ break 0 +:+ String "]" EmptyString)
            - length bs - 5)%nat.
    cbn [String.length]. rewrite !length_append_str.
    simpl String.length in *. lia. }
  rewrite dumps_books_cons.
  destruct (concat_records_head 1 b bs (break 0 +:+ String "]" EmptyString))
    as [t Ht].
  rewrite (parse_value_array _ "{" t);
    [|by rewrite skip_ws_break, Ht|done].
  rewrite parse_elements. reflexivity.
Qed.

(** The reference [json] reads back every collection it wrote. *)
Lemma reads_back_books (bs : list Book) :
  reads_back (JArr (map to_dict bs)).
Proof.
  unfold reads_back. cbn [str_strip json_dumps json_loads builtins].
  rewrite strip_dumps_books. split; [|apply loads_dumps_books].
  destruct bs as [|b bs]; [reflexivity|]. by rewrite dumps_books_cons.
Qed.
End ReferenceFacts.

(** With the reference [json], saving and loading in a fresh store gives
    back every store, whatever its books. *)
Corollary save_then_load_reference (self : Library) (w : World) :
  let H := Reference.builtins in
  save_books self w = (Return (), saved self w)
  ∧ Library_init (storage_file self) (saved self w)
    = (Return self, saved self w).
Proof.
  intros H. split; [done|].
  apply load_after_save, ReferenceFacts.reads_back_books.
Qed.

(** * Further properties of the store *)

Section Further.
Context `{PyBuiltins}.

(** X1. [from_dict] undoes [to_dict] on every book; and the book
    [from_dict] makes of a dict holds, under each of the five keys,
    the value the dict held there: other keys and the order of the keys
    do not count. *)
Theorem book_dict_roundtrip :
  (∀ b : Book, from_dict (to_dict b) = Return b)
  ∧ (∀ (d : list (string * json)) (b : Book),
       from_dict (JObj d) = Return b →
       ∀ key, key ∈ required_keys →
              subscript (to_dict b) key = subscript (JObj d) key).
Proof.
  split; [by intros []|].
  intros d b Hfrom key Hkey.
  unfold from_dict, subscript, as_str, as_int, mbind, outcome_bind, mret,
    outcome_ret in *.
  destruct (dict_get "title" d) as [v1|] eqn:E1; [|done].
  destruct (dict_get "author" d) as [v2|] eqn:E2; [|done].
  destruct (dict_get "year" d) as [v3|] eqn:E3; [|done].
  destruct (dict_get "id" d) as [v4|] eqn:E4; [|done].
  destruct (dict_get "status" d) as [v5|] eqn:E5; [|done].
  destruct v1; try done; destruct v2; try done; destruct v3; try done;
    destruct v4; try done; destruct v5; try done.
  injection Hfrom as <-.
  unfold required_keys in Hkey.
  repeat (apply elem_of_cons in Hkey as [->|Hkey];
          [by rewrite ?E1, ?E2, ?E3, ?E4, ?E5|]).
  by apply not_elem_of_nil in Hkey.
Qed.

(** X2. The exceptions of [from_dict]: on what is no dict it raises
    [TypeError]; on a dict it raises [KeyError] for the first of
    title, author, year, id, status that is missing, and raises nothing
    when none is. *)
Theorem from_dict_errors (data : json) :
  match data with
  | JObj d =>
      match first_missing d with
      | Some key => from_dict data = Raise (KeyError key)
      | None => ∀ e, from_dict data ≠ Raise e
      end
  | _ => from_dict data = Raise TypeError
  end.
Proof.
  destruct data as [| | | | | |d]; try reflexivity.
  unfold first_missing, required_keys, from_dict, subscript, as_str, as_int,
    mbind, outcome_bind, mret, outcome_ret. simpl.
  destruct (dict_get "title" d) as [v1|]; [|done].
  destruct (dict_get "author" d) as [v2|]; [|done].
  destruct (dict_get "year" d) as [v3|]; [|done].
  destruct (dict_get "id" d) as [v4|]; [|done].
  destruct (dict_get "status" d) as [v5|]; [|done].
  intros e. simpl.
  destruct v1; try done; destruct v2; try done; destruct v3; try done;
    destruct v4; try done; destruct v5; done.
Qed.

(** *** Loading *)

(** X3. When the backing file is missing, or blank once stripped,
    [load_books] returns with the store as it was: nothing is printed,
    no file is made or changed. *)
Theorem load_nothing_to_read (self : Library) (w : World) :
  match fs w !! storage_file self with
  | None => True
  | Some text => truthy_str (str_strip text) = false
  end →
  load_books self w = (Return self, w).
Proof.
  destruct (fs w !! storage_file self) as [text|] eqn:Hfile; intros Hblank.
  - by apply (load_books_blank self w text).
  - by apply load_books_absent.
Qed.

(** X4. When the backing file decodes to the list of dicts of some
    books, [load_books] makes these books, in order, the collection of
    the store, whatever the collection was before; nothing is printed
    and no file is changed. *)
Theorem load_replaces_collection (self : Library) (w : World) (text : string)
    (bs : list Book) :
  fs w !! storage_file self = Some text →
  truthy_str (str_strip text) = true →
  json_loads (str_strip text) = Some (JArr (map to_dict bs)) →
  load_books self w = (Return (set_books self bs), w).
Proof.
  intros Hfile Hdata Hloads.
  rewrite (load_books_decoded self w text Hfile Hdata), Hloads.
  simpl. by rewrite mapM_from_dict_to_dict.
Qed.

(** X5. When the backing file decodes to a value that is no list,
    [load_books] raises [TypeError], which its handler lets through;
    but the empty dict and the empty string, which a loop runs over
    without a turn, load as the empty collection. *)
Theorem load_not_a_list (self : Library) (w : World) (text : string)
    (value : json) :
  fs w !! storage_file self = Some text →
  truthy_str (str_strip text) = true →
  json_loads (str_strip text) = Some value →
  (∀ items, value ≠ JArr items) →
  load_books self w
  = if iterates_nothing value then (Return (set_books self []), w)
    else (Raise TypeError, w).
Proof.
  intros Hfile Hdata Hloads Hlist.
  rewrite (load_books_decoded self w text Hfile Hdata), Hloads.
  destruct value as [| | | |s|items|d]; try reflexivity.
  - by destruct s.
  - by destruct (Hlist items).
  - by destruct d as [|[k v] d].
Qed.

(** X6. Whatever the backing file holds, [load_books] changes no file;
    it prints nothing or the one decode diagnostic; and the store it
    returns keeps its backing file. *)
Theorem load_only_reads (self : Library) (w : World) :
  fs (load_books self w).2 = fs w
  ∧ (stdout (load_books self w).2 = stdout w
     ∨ stdout (load_books self w).2 = stdout w ++ [msg_decode_error])
  ∧ ∀ self', (load_books self w).1 = Return self' →
             storage_file self' = storage_file self.
Proof.
  assert (∀ self0 : Library, storage_file self0 = storage_file self →
            fs (Return self0, w).2 = fs w
            ∧ (stdout (Return self0, w).2 = stdout w
               ∨ stdout (Return self0, w).2 = stdout w ++ [msg_decode_error])
            ∧ ∀ self', (Return self0, w).1 = Return self' →
                       storage_file self' = storage_file self) as Hquiet.
  { intros self0 Hfile. split; [done|]. split; [by left|].
    by intros ? [= <-]. }
  destruct (fs w !! storage_file self) as [text|] eqn:Hfile.
  2:{ rewrite load_books_absent by done. by apply Hquiet. }
  destruct (truthy_str (str_strip text)) eqn:Hdata.
  2:{ rewrite (load_books_blank self w text) by done. by apply Hquiet. }
  rewrite (load_books_decoded self w text Hfile Hdata).
  destruct (json_loads (str_strip text)) as [value|].
  - destruct (records ← iterate value; mapM from_dict records) as [bs|e|].
    + by apply Hquiet.
    + destruct e; try (split; [done|]; split; [by left|done]).
      split; [done|]. split; [by right|]. by intros ? [= <-].
    + split; [done|]. split; [by left|done].
  - split; [done|]. split; [by right|]. by intros ? [= <-].
Qed.

(** *** Lookup after a mutation *)

Lemma find_from_app (bs more : list Book) (start : nat) (book_id : Z) :
  find_from start (bs ++ more) book_id
  = match find_from start bs book_id with
    | Some r => Some r
    | None => find_from (start + length bs) more book_id
    end.
Proof.
  revert start. induction bs as [|b bs IH]; intros start; simpl.
  - by rewrite Nat.add_0_r.
  - destruct (id b =? book_id); [done|]. rewrite IH.
    by replace (S start + length bs)%nat with (start + S (length bs))%nat by lia.
Qed.

Lemma find_added (self : Library) (nb : Book) :
  id nb = _generate_id self →
  find_book_by_id (set_books self (books self ++ [nb])) (id nb)
  = Some (length (books self), nb).
Proof.
  intros Hid. unfold find_book_by_id. simpl. rewrite find_from_app.
  destruct (find_from 0 (books self) (id nb)) as [[pos b]|] eqn:E.
  - apply find_from_Some in E as (k & _ & Hk & Hb & _).
    assert (id b < _generate_id self)
      by (apply generate_id_above, list_elem_of_lookup; eauto).
    lia.
  - simpl. by rewrite Z.eqb_refl.
Qed.

(** X7. After [add_book] the new identifier finds the new book, at the
    end of the collection; every identifier that found a book before
    finds the same book at the same place. *)
Theorem add_then_find (self : Library) (t a : string) (y : Z) (w : World) :
  ∃ self' w',
    add_book self t a y w = (Return self', w')
    ∧ find_book_by_id self' (_generate_id self)
      = Some (length (books self),
              Book_init t a y (_generate_id self) default_status)
    ∧ ∀ book_id found, find_book_by_id self book_id = Some found →
                       find_book_by_id self' book_id = Some found.
Proof.
  eexists _, _. split; [apply add_book_run|]. split.
  - by apply (find_added self (Book_init t a y (_generate_id self) default_status)).
  - intros book_id found Hfound. unfold find_book_by_id in *. simpl.
    by rewrite find_from_app, Hfound.
Qed.

(** X8. Removing the book [add_book] has just added, by the identifier
    it was given, gives back the store as it was before the addition,
    and leaves in the backing file the collection as it was. *)
Theorem add_then_remove (self : Library) (t a : string) (y : Z) (w : World) :
  ∃ self1 w1,
    add_book self t a y w = (Return self1, w1)
    ∧ remove_book self1 (_generate_id self) w1 = (Return self, saved self w).
Proof.
  eexists _, _. split; [apply add_book_run|].
  pose (nb := Book_init t a y (_generate_id self) default_status).
  rewrite (remove_book_found _ _ _ _ _ (find_added self nb eq_refl)).
  cbn -[saved]. rewrite delete_take_drop.
  rewrite take_app_length, drop_ge by (rewrite length_app; simpl; lia).
  rewrite app_nil_r.
  assert (set_books (set_books self (books self ++ [nb])) (books self) = self)
    as -> by by destruct self.
  unfold saved. simpl. by rewrite insert_insert_eq.
Qed.

(** *** Status changes *)

Lemma change_status_found (self : Library) (book_id : Z) (new_status : string)
    (w : World) (pos : nat) (book : Book) :
  find_book_by_id self book_id = Some (pos, book) →
  let self' :=
    set_books self (<[pos := set_status book new_status]> (books self)) in
  change_status self book_id new_status w = (Return self', saved self' w).
Proof. intros Hfind. unfold change_status. by rewrite Hfind. Qed.

Lemma change_status_missing (self : Library) (book_id : Z)
    (new_status : string) (w : World) :
  find_book_by_id self book_id = None →
  change_status self book_id new_status w
  = (Return self,
     {| fs := fs w; stdout := stdout w ++ [msg_not_found book_id] |}).
Proof. intros Hfind. unfold change_status. by rewrite Hfind. Qed.

Lemma find_from_insert (bs : list Book) :
  ∀ (start pos : nat) (book b' : Book) (book_id : Z),
  bs !! pos = Some book → id b' = id book →
  find_from start (<[pos := b']> bs) book_id
  = match find_from start bs book_id with
    | Some (p, b) => Some (p, if decide (p = start + pos)%nat then b' else b)
    | None => None
    end.
Proof.
  induction bs as [|b0 bs IH]; intros start pos book b' book_id Hpos Hid;
    [done|].
  destruct pos as [|pos]; simpl in *.
  - injection Hpos as ->. rewrite Hid.
    destruct (id book =? book_id).
    + by rewrite decide_True by lia.
    + destruct (find_from (S start) bs book_id) as [[p b]|] eqn:E; [|done].
      apply find_from_Some in E as (k & -> & _).
      by rewrite decide_False by lia.
  - destruct (id b0 =? book_id).
    + by rewrite decide_False by lia.
    + rewrite (IH (S start) pos book b' book_id Hpos Hid).
      destruct (find_from (S start) bs book_id) as [[p b]|]; [|done].
      do 2 f_equal. by repeat case_decide; try lia.
Qed.

(** X9. [change_status] keeps every identifier in its place; the
    identifier it was called with then finds the same book with the new
    status (or still nothing), and every other identifier finds what it
    found before. *)
Theorem change_then_find (self : Library) (book_id : Z) (new_status : string)
    (w : World) :
  ∃ self' w',
    change_status self book_id new_status w = (Return self', w')
    ∧ ids self' = ids self
    ∧ find_book_by_id self' book_id
      = match find_book_by_id self book_id with
        | Some (pos, book) => Some (pos, set_status book new_status)
        | None => None
        end
    ∧ ∀ other, other ≠ book_id →
               find_book_by_id self' other = find_book_by_id self other.
Proof.
  destruct (find_book_by_id self book_id) as [[pos book]|] eqn:Hfind.
  - eexists _, _. split; [by apply change_status_found|].
    pose proof (find_book_by_id_Some _ _ _ _ Hfind) as (Hpos & Hid & _).
    assert (∀ key, find_book_by_id
                     (set_books self
                        (<[pos := set_status book new_status]> (books self)))
                     key
                   = match find_book_by_id self key with
                     | Some (p, b) =>
                         Some (p, if decide (p = pos)
                                  then set_status book new_status else b)
                     | None => None
                     end) as Hlook.
    { intros key. unfold find_book_by_id. simpl.
      by rewrite (find_from_insert _ 0 pos book
                    (set_status book new_status) key Hpos eq_refl). }
    split; [|split].
    + unfold ids. simpl. rewrite list_fmap_insert. simpl.
      apply list_insert_id. by rewrite list_lookup_fmap, Hpos.
    + rewrite Hlook, Hfind. by rewrite decide_True.
    + intros other Hother. rewrite Hlook.
      destruct (find_book_by_id self other) as [[p b]|] eqn:E; [|done].
      apply find_book_by_id_Some in E as (Hp & Hb & _).
      destruct (decide (p = pos)) as [->|]; [|done]. congruence.
  - eexists _, _. split; [by apply change_status_missing|]. by rewrite Hfind.
Qed.

(** X10. Of two status changes of one identifier the second wins: the
    store and the files are those of the second change alone. *)
Theorem change_status_last_wins (self : Library) (book_id : Z)
    (first second : string) (w : World) :
  ∃ self1 w1 self2 w2 w2',
    change_status self book_id first w = (Return self1, w1)
    ∧ change_status self1 book_id second w1 = (Return self2, w2)
    ∧ change_status self book_id second w = (Return self2, w2')
    ∧ fs w2 = fs w2'.
Proof.
  destruct (find_book_by_id self book_id) as [[pos book]|] eqn:Hfind.
  - pose proof (find_book_by_id_Some _ _ _ _ Hfind) as (Hpos & Hid & _).
    pose (self1 := set_books self
                     (<[pos := set_status book first]> (books self))).
    assert (find_book_by_id self1 book_id = Some (pos, set_status book first))
      as Hfind1.
    { unfold find_book_by_id, self1. simpl.
      rewrite (find_from_insert _ 0 pos book (set_status book first)
                 book_id Hpos eq_refl).
      fold (find_book_by_id self book_id). rewrite Hfind.
      by rewrite decide_True. }
    exists self1. eexists. eexists. eexists. eexists.
    split; [by apply change_status_found|].
    split; [by apply change_status_found|].
    rewrite (change_status_found _ _ second w _ _ Hfind).
    unfold self1. cbn -[saved]. rewrite list_insert_insert_eq.
    split; [done|]. unfold saved. simpl. by rewrite insert_insert_eq.
  - exists self. eexists. exists self. eexists. eexists.
    split; [by apply change_status_missing|].
    split; [by apply change_status_missing|].
    split; [by apply change_status_missing|]. done.
Qed.

(** *** What the methods leave alone *)

(** X11. [save_books], [add_book], [remove_book] and [change_status]
    leave every file other than the backing file as it was. *)
Theorem other_files_untouched (self : Library) (w : World) (path : string) :
  path ≠ storage_file self →
  fs (save_books self w).2 !! path = fs w !! path
  ∧ (∀ t a y, fs (add_book self t a y w).2 !! path = fs w !! path)
  ∧ (∀ book_id, fs (remove_book self book_id w).2 !! path = fs w !! path)
  ∧ (∀ book_id new_status,
       fs (change_status self book_id new_status w).2 !! path = fs w !! path).
Proof.
  intros Hpath. split; [|split; [|split]].
  - simpl. by rewrite lookup_insert_ne.
  - intros t a y. rewrite add_book_run. simpl. by rewrite lookup_insert_ne.
  - intros book_id.
    destruct (find_book_by_id self book_id) as [[pos book]|] eqn:Hfind.
    + rewrite (remove_book_found _ _ _ _ _ Hfind). simpl.
      by rewrite lookup_insert_ne.
    + by rewrite remove_book_missing.
  - intros book_id new_status.
    destruct (find_book_by_id self book_id) as [[pos book]|] eqn:Hfind.
    + rewrite (change_status_found _ _ _ _ _ _ Hfind). simpl.
      by rewrite lookup_insert_ne.
    + by rewrite change_status_missing.
Qed.

(** *** Invariants *)

Lemma api_step_storage_file (self self' : Library) :
  api_step self self' → storage_file self' = storage_file self.
Proof.
  intros [t a y w w' mid Hrun | book_id w w' mid Hrun
         | book_id new_status w w' mid Hrun].
  - rewrite add_book_run in Hrun. by injection Hrun as <- _.
  - destruct (find_book_by_id self book_id) as [[pos book]|] eqn:Hfind.
    + rewrite (remove_book_found _ _ _ _ _ Hfind) in Hrun.
      by injection Hrun as <- _.
    + rewrite remove_book_missing in Hrun by done. by injection Hrun as <- _.
  - destruct (find_book_by_id self book_id) as [[pos book]|] eqn:Hfind.
    + rewrite (change_status_found _ _ _ _ _ _ Hfind) in Hrun.
      by injection Hrun as <- _.
    + rewrite change_status_missing in Hrun by done.
      by injection Hrun as <- _.
Qed.

(** X12. From a store whose identifiers are positive and pairwise
    distinct, any run of calls of [add_book], [remove_book] and
    [change_status] leads to a store whose identifiers are positive and
    pairwise distinct, over the same backing file. *)
Theorem methods_keep_invariant (start self : Library) :
  well_formed start → rtc api_step start self →
  well_formed self ∧ storage_file self = storage_file start.
Proof.
  intros Hstart Hrun.
  induction Hrun as [self|self mid final Hstep _ IH]; [done|].
  assert (storage_file mid = storage_file self) as Hfile
    by by apply api_step_storage_file.
  rewrite <- Hfile. apply IH. by apply (api_step_well_formed self).
Qed.


(** *** Restart *)

(** X14. Where the [json] module reads back the collections it writes,
    a store built anew over the backing file after [add_book], or after
    a [remove_book] or a [change_status] that found its book, is the
    store the method left in memory. *)
Theorem restart_after_mutation (self : Library) (w : World) :
  (∀ bs, reads_back (JArr (map to_dict bs))) →
  (∀ t a y, ∃ self',
     add_book self t a y w = (Return self', saved self' w)
     ∧ Library_init (storage_file self) (saved self' w)
       = (Return self', saved self' w))
  ∧ (∀ book_id, find_book_by_id self book_id ≠ None → ∃ self',
       remove_book self book_id w = (Return self', saved self' w)
       ∧ Library_init (storage_file self) (saved self' w)
         = (Return self', saved self' w))
  ∧ (∀ book_id new_status, find_book_by_id self book_id ≠ None → ∃ self',
       change_status self book_id new_status w = (Return self', saved self' w)
       ∧ Library_init (storage_file self) (saved self' w)
         = (Return self', saved self' w)).
Proof.
  intros Hjson.
  assert (∀ bs, let self' := set_books self bs in
                Library_init (storage_file self) (saved self' w)
                = (Return self', saved self' w)) as Hload.
  { intros bs self'. apply (load_after_save self'), Hjson. }
  split; [|split].
  - intros t a y. eexists. split; [apply add_book_run|]. apply Hload.
  - intros book_id Hfound.
    destruct (find_book_by_id self book_id) as [[pos book]|] eqn:Hfind; [|done].
    eexists. split; [apply (remove_book_found _ _ _ _ _ Hfind)|]. apply Hload.
  - intros book_id new_status Hfound.
    destruct (find_book_by_id self book_id) as [[pos book]|] eqn:Hfind; [|done].
    eexists. split; [apply (change_status_found _ _ _ _ _ _ Hfind)|].
    apply Hload.
Qed.

(** *** Search in stages *)

Lemma find_books_filter (self : Library) (by_title by_author : option string)
    (by_year : option Z) :
  find_books self by_title by_author by_year
  = List.filter (meetsb by_title by_author by_year) (books self).
Proof.
  unfold find_books. cbv zeta.
  rewrite (guarded_filter by_title truthy_str title_test),
    (guarded_filter by_author truthy_str author_test),
    (guarded_filter by_year truthy_int year_test).
  rewrite !filter_filter_andb. apply List.filter_ext. intros b.
  unfold meetsb. by rewrite andb_assoc.
Qed.

(** X15. A search by several criteria is a search by title, a search by
    author among the books found, and a search by year among those;
    and the same with the year first and the title last. *)
Theorem find_books_in_stages (self : Library)
    (by_title by_author : option string) (by_year : option Z) :
  let within (bs : list Book) := set_books self bs in
  find_books self by_title by_author by_year
  = find_books
      (within (find_books (within (find_books self by_title None None))
                          None by_author None))
      None None by_year
  ∧ find_books self by_title by_author by_year
    = find_books
        (within (find_books (within (find_books self None None by_year))
                            None by_author None))
        by_title None None.
Proof.
  intros within. rewrite !find_books_filter. unfold within. simpl.
  rewrite !filter_filter_andb.
  split; apply List.filter_ext; intros b; unfold meetsb;
    destruct by_title, by_author, by_year; simpl;
    rewrite ?andb_true_r; try done; by destruct (_ || _), (_ || _); try destruct (_ || _).
Qed.
End Further.

(** * Properties of the menu *)

Section Menu.
Context `{PyBuiltins, PyInt}.

Lemma bind_run {A B} (m : T A) (f : A → T B) (t t' : Terminal) (a : A) :
  m t = (Done a, t') → (m ≫= f) t = f a t'.
Proof. intros Hm. unfold mbind, T_bind. by rewrite Hm. Qed.

Lemma bind_crash {A B} (m : T A) (f : A → T B) (t t' : Terminal) (c : crash) :
  m t = (Crashed c, t') → (m ≫= f) t = (Crashed c, t').
Proof. intros Hm. unfold mbind, T_bind. by rewrite Hm. Qed.

Lemma bind_inv {A B} (m : T A) (f : A → T B) (t t' : Terminal) (b : B) :
  (m ≫= f) t = (Done b, t') →
  ∃ a t1, m t = (Done a, t1) ∧ f a t1 = (Done b, t').
Proof.
  unfold mbind, T_bind. destruct (m t) as [[a|c] t1]; [eauto|done].
Qed.

(** *** Reading the input *)

Lemma reads_ret {A} (a : A) : reads (mret a : T A).
Proof. intros t. by exists []. Qed.

Lemma reads_bind {A B} (m : T A) (f : A → T B) :
  reads m → (∀ a, reads (f a)) → reads (m ≫= f).
Proof.
  intros Hm Hf t. destruct (Hm t) as [used1 H1].
  unfold mbind, T_bind. destruct (m t) as [[a|c] t1]; simpl in *; [|eauto].
  destruct (Hf a t1) as [used2 H2]. exists (used1 ++ used2).
  by rewrite <- app_assoc, <- H2.
Qed.

Lemma reads_say (text : string) : reads (say text).
Proof. intros t. by exists []. Qed.

Lemma reads_input (prompt : string) : reads (input prompt).
Proof.
  intros t. unfold input. destruct (stdin t) as [|line rest] eqn:E; simpl.
  - exists []. by rewrite E.
  - by exists [line].
Qed.

Lemma reads_int (text : string) : reads (int text).
Proof. intros t. unfold int. exists []. by destruct (py_int text). Qed.

Lemma reads_call {A} (method : M A) : reads (call method).
Proof.
  intros t. unfold call. exists [].
  by destruct (method _) as [[a|e|] w].
Qed.

Lemma reads_show_books (bs : list Book) : reads (show_books bs).
Proof.
  induction bs as [|b bs IH]; [apply reads_ret|].
  apply reads_bind; [apply reads_say|done].
Qed.

Lemma reads_say_all (lines : list string) : reads (say_all lines).
Proof.
  induction lines as [|l lines IH]; [apply reads_ret|].
  apply reads_bind; [apply reads_say|done].
Qed.

Lemma reads_show_found (bs : list Book) : reads (show_found bs).
Proof. destruct bs; [apply reads_say|apply reads_show_books]. Qed.

Ltac reads_steps :=
  repeat first
    [ apply reads_ret | apply reads_say | apply reads_input | apply reads_int
    | apply reads_call | apply reads_show_books | apply reads_show_found
    | apply reads_say_all
    | apply reads_bind; [|intros ?]
    | match goal with |- reads (if ?c then _ else _) => destruct c end ].

Lemma reads_choose (choice : string) (library : Library) :
  reads (choose choice library).
Proof.
  unfold choose, add_turn, remove_turn, search_turn, list_turn, status_turn.
  reads_steps.
Qed.

(** *** What a part of [main] returns *)

Lemma returns_ret {A} (a : A) (Q : A → Prop) : Q a → returns (mret a : T A) Q.
Proof. intros HQ t a' t' [= <- _]. done. Qed.

Lemma returns_bind {A B} (m : T A) (f : A → T B) (P : A → Prop)
    (Q : B → Prop) :
  returns m P → (∀ a, P a → returns (f a) Q) → returns (m ≫= f) Q.
Proof.
  intros Hm Hf t b t' Hrun.
  apply bind_inv in Hrun as (a & t1 & Hrun1 & Hrun2).
  eapply Hf; [by eapply Hm|done].
Qed.

Lemma returns_any {A} (m : T A) : returns m (λ _, True).
Proof. by intros t a t' _. Qed.

Lemma returns_call {A} (method : M A) (Q : A → Prop) :
  (∀ w a w', method w = (Return a, w') → Q a) → returns (call method) Q.
Proof.
  intros Hmethod t a t'. unfold call.
  destruct (method _) as [[a0|e|] w] eqn:E; [|done..].
  intros [= <- _]. by eapply Hmethod.
Qed.

(** *** Running the parts on a terminal *)

Lemma say_all_run (lines : list string) (t : Terminal) :
  say_all lines t = (Done (), show (map Line lines) t).
Proof.
  revert t. induction lines as [|l lines IH]; intros t.
  - unfold show. simpl. rewrite app_nil_r. by destruct t.
  - change (say_all (l :: lines)) with (say l;; say_all lines).
    rewrite (bind_run _ _ t (show [Line l] t) ()) by done.
    rewrite IH. unfold show. simpl. by rewrite <- app_assoc.
Qed.

Lemma show_books_run (bs : list Book) (t : Terminal) :
  show_books bs t = (Done (), show (map (λ b, Line (show_book b)) bs) t).
Proof.
  revert t. induction bs as [|b bs IH]; intros t.
  - unfold show. simpl. rewrite app_nil_r. by destruct t.
  - change (show_books (b :: bs)) with (say (show_book b);; show_books bs).
    rewrite (bind_run _ _ t (show [Line (show_book b)] t) ()) by done.
    rewrite IH. unfold show. simpl. by rewrite <- app_assoc.
Qed.

Lemma show_found_run (found : list Book) (t : Terminal) :
  show_found found t
  = (Done (),
     show match found with
          | [] => [Line "Книги не найдены."]
          | _ :: _ => map (λ b, Line (show_book b)) found
          end t).
Proof. destruct found; [done|apply show_books_run]. Qed.

Lemma turn_run (library : Library) (choice : string) (rest : list string)
    (sc : list shown) (d : gmap string string) :
  turn library {| stdin := choice :: rest; screen := sc; disk := d |}
  = choose choice library
      {| stdin := rest;
         screen := sc ++ map Line menu ++ [Prompt "Выберите действие: "];
         disk := d |}.
Proof.
  unfold turn. erewrite bind_run by apply say_all_run.
  erewrite bind_run by reflexivity.
  unfold show. simpl. by rewrite <- app_assoc.
Qed.

Lemma turn_eof (library : Library) (sc : list shown) (d : gmap string string) :
  turn library {| stdin := []; screen := sc; disk := d |}
  = (Crashed EOFError,
     {| stdin := [];
        screen := sc ++ map Line menu ++ [Prompt "Выберите действие: "];
        disk := d |}).
Proof.
  unfold turn. erewrite bind_run by apply say_all_run.
  erewrite bind_crash by reflexivity.
  unfold show. simpl. by rewrite <- app_assoc.
Qed.

Lemma turn_chosen (library : Library) (choice : string) (rest : list string)
    (sc : list shown) (d : gmap string string) :
  turn library {| stdin := choice :: rest; screen := sc; disk := d |}
  = choose choice library
      {| stdin := rest; screen := after_menu sc []; disk := d |}.
Proof. apply turn_run. Qed.

Lemma after_menu_app (sc items more : list shown) :
  after_menu sc items ++ more = after_menu sc (items ++ more).
Proof. unfold after_menu. by rewrite <- !app_assoc. Qed.

Lemma int_run (text : string) (n : Z) (t : Terminal) :
  py_int text = Some n → int text t = (Done n, t).
Proof. intros Hint. unfold int. by rewrite Hint. Qed.

(** X17. A choice other than [1] to [6] shows the menu, the prompt and
    the line for a wrong choice, and leads to another turn with the
    store and the files as they were. *)
Theorem unknown_choice_changes_nothing (library : Library) (choice : string)
    (rest : list string) (sc : list shown) (d : gmap string string) :
  choice ∉ ["1"; "2"; "3"; "4"; "5"; "6"] →
  turn library {| stdin := choice :: rest; screen := sc; disk := d |}
  = (Done (Again library),
     {| stdin := rest;
        screen := after_menu sc [Line "Неверный выбор."];
        disk := d |}).
Proof.
  intros Hchoice. rewrite turn_chosen. unfold choose.
  assert (∀ k, k ∈ ["1"; "2"; "3"; "4"; "5"; "6"] → String.eqb choice k = false)
    as Hno.
  { intros k Hk. apply String.eqb_neq. intros ->. done. }
  rewrite !Hno by repeat constructor.
  erewrite bind_run by reflexivity. unfold show. simpl.
  by rewrite after_menu_app.
Qed.

(** X19. The choice [5] with a known status and an identifier no book
    carries shows the not-found line and then, all the same, the line
    that the status was updated; the store and the files are as they
    were. *)
Theorem status_turn_unknown_id (library : Library)
    (id_text status_text : string) (book_id : Z) (rest : list string)
    (sc : list shown) (d : gmap string string) :
  py_int id_text = Some book_id →
  status_known (str_lower (str_strip status_text)) →
  find_book_by_id library book_id = None →
  turn library {| stdin := "5" :: id_text :: status_text :: rest;
                  screen := sc; disk := d |}
  = (Done (Again library),
     {| stdin := rest;
        screen :=
          after_menu sc
            [ Prompt "Введите ID книги: ";
              Prompt "Введите новый статус книги (в наличии/выдана): ";
              Line (msg_not_found book_id);
              Line "Статус книги обновлен." ];
        disk := d |}).
Proof.
  intros Hint Hstatus Hfind. rewrite turn_chosen.
  change (choose "5" library) with (status_turn library). unfold status_turn.
  erewrite bind_run by reflexivity.
  erewrite bind_run by (by apply int_run).
  erewrite bind_run by reflexivity. cbv zeta.
  assert (String.eqb (str_lower (str_strip status_text)) default_status
          || String.eqb (str_lower (str_strip status_text)) status_checked_out
          = true) as ->.
  { destruct Hstatus as [-> | ->]; reflexivity. }
  erewrite bind_run.
  2:{ unfold call. rewrite change_status_missing by done. reflexivity. }
  erewrite bind_run by reflexivity. unfold show. simpl.
  by rewrite !after_menu_app.
Qed.

(** X20. The choice [5] with a status that, stripped and lowered, is
    neither of the two known ones shows the line for a wrong status and
    changes neither the store nor the files, whether or not a book
    carries the identifier. *)
Theorem status_turn_rejects (library : Library)
    (id_text status_text : string) (book_id : Z) (rest : list string)
    (sc : list shown) (d : gmap string string) :
  py_int id_text = Some book_id →
  ¬ status_known (str_lower (str_strip status_text)) →
  turn library {| stdin := "5" :: id_text :: status_text :: rest;
                  screen := sc; disk := d |}
  = (Done (Again library),
     {| stdin := rest;
        screen :=
          after_menu sc
            [ Prompt "Введите ID книги: ";
              Prompt "Введите новый статус книги (в наличии/выдана): ";
              Line "Неверный статус." ];
        disk := d |}).
Proof.
  intros Hint Hstatus. rewrite turn_chosen.
  change (choose "5" library) with (status_turn library). unfold status_turn.
  erewrite bind_run by reflexivity.
  erewrite bind_run by (by apply int_run).
  erewrite bind_run by reflexivity. cbv zeta.
  assert (String.eqb (str_lower (str_strip status_text)) default_status
          || String.eqb (str_lower (str_strip status_text)) status_checked_out
          = false) as ->.
  { apply orb_false_iff. split; apply String.eqb_neq; intros Heq;
      apply Hstatus; [by left|by right]. }
  erewrite bind_run by reflexivity. unfold show. simpl.
  by rewrite !after_menu_app.
Qed.

(** X18. The choice [1] reads a title, an author and a year. When the
    year is an integer, the book is added with the next identifier and
    saved, and the confirmation is shown; when it is not, [ValueError]
    ends the turn after the three prompts, with nothing added and no
    file changed. *)
Theorem add_turn_outcome (library : Library)
    (title author year_text : string) (rest : list string)
    (sc : list shown) (d : gmap string string) :
  let asked := [ Prompt "Введите название книги: ";
                 Prompt "Введите автора книги: ";
                 Prompt "Введите год издания книги: " ] in
  turn library {| stdin := "1" :: title :: author :: year_text :: rest;
                  screen := sc; disk := d |}
  = match py_int year_text with
    | Some year =>
        let library' :=
          set_books library
            (books library
             ++ [Book_init title author year (_generate_id library)
                   default_status]) in
        (Done (Again library'),
         {| stdin := rest;
            screen := after_menu sc (asked ++ [Line "Книга добавлена."]);
            disk := <[storage_file library :=
                        json_dumps (JArr (map to_dict (books library')))]> d |})
    | None =>
        (Crashed ValueError,
         {| stdin := rest; screen := after_menu sc asked; disk := d |})
    end.
Proof.
  intros asked. rewrite turn_chosen.
  change (choose "1" library) with (add_turn library). unfold add_turn.
  do 3 (erewrite bind_run by reflexivity).
  destruct (py_int year_text) as [year|] eqn:Hint.
  - erewrite bind_run by (by apply int_run).
    erewrite bind_run by (unfold call; rewrite add_book_run; reflexivity).
    erewrite bind_run by reflexivity.
    unfold mret, T_ret, show. simpl. by rewrite !after_menu_app.
  - erewrite bind_crash; [|unfold int; by rewrite Hint].
    simpl. by rewrite !after_menu_app.
Qed.

(** X21. The choice [3] by year shows one line per book the search by
    that year finds, or the line that no book was found, and changes
    nothing; for the year [0] the search finds the whole collection. *)
Theorem search_by_year_turn (library : Library)
    (field year_text : string) (year : Z) (rest : list string)
    (sc : list shown) (d : gmap string string) :
  str_lower (str_strip field) = "year" →
  py_int year_text = Some year →
  turn library {| stdin := "3" :: field :: year_text :: rest;
                  screen := sc; disk := d |}
  = (Done (Again library),
     {| stdin := rest;
        screen :=
          after_menu sc
            ([ Prompt "Искать по (title/author/year): ";
               Prompt "Введите год издания книги: " ]
             ++ match find_books library None None (Some year) with
                | [] => [Line "Книги не найдены."]
                | found => map (λ b, Line (show_book b)) found
                end);
        disk := d |})
  ∧ (year = 0 → find_books library None None (Some year) = books library).
Proof.
  intros Hfield Hint. split; [|by intros ->].
  rewrite turn_chosen.
  change (choose "3" library) with (search_turn library). unfold search_turn.
  erewrite bind_run by reflexivity. cbv zeta. rewrite Hfield.
  change (String.eqb "year" "title") with false.
  change (String.eqb "year" "author") with false.
  change (String.eqb "year" "year") with true. cbv iota.
  erewrite bind_run by reflexivity.
  erewrite bind_run by (by apply int_run).
  erewrite bind_run by apply show_found_run.
  generalize (find_books library None None (Some year)). intros found.
  unfold mret, T_ret, show. destruct found; simpl; by rewrite !after_menu_app.
Qed.

(** X22. The choice [4] shows one line per book of the collection, in
    order, and nothing else: no line at all for an empty collection. *)
Theorem list_turn_shows_all (library : Library) (rest : list string)
    (sc : list shown) (d : gmap string string) :
  turn library {| stdin := "4" :: rest; screen := sc; disk := d |}
  = (Done (Again library),
     {| stdin := rest;
        screen := after_menu sc (map (λ b, Line (show_book b)) (books library));
        disk := d |}).
Proof.
  rewrite turn_chosen.
  change (choose "4" library) with (list_turn library). unfold list_turn.
  erewrite bind_run by apply show_books_run.
  unfold mret, T_ret, show, list_books. simpl. by rewrite after_menu_app.
Qed.

(** *** The store through the turns *)

Lemma add_book_conventional (self self' : Library) (t a : string) (y : Z)
    (w w' : World) :
  conventional self → add_book self t a y w = (Return self', w') →
  conventional self'.
Proof.
  intros Hconv Hrun. rewrite add_book_run in Hrun. injection Hrun as <- _.
  unfold conventional. simpl. apply Forall_app. split; [done|].
  apply Forall_singleton. by left.
Qed.

Lemma remove_book_conventional (self self' : Library) (book_id : Z)
    (w w' : World) :
  conventional self → remove_book self book_id w = (Return self', w') →
  conventional self'.
Proof.
  intros Hconv Hrun.
  destruct (find_book_by_id self book_id) as [[pos book]|] eqn:Hfind.
  - rewrite (remove_book_found _ _ _ _ _ Hfind) in Hrun.
    injection Hrun as <- _. by apply Forall_delete.
  - rewrite remove_book_missing in Hrun by done. by injection Hrun as <- _.
Qed.

Lemma change_status_conventional (self self' : Library) (book_id : Z)
    (new_status : string) (w w' : World) :
  conventional self → status_known new_status →
  change_status self book_id new_status w = (Return self', w') →
  conventional self'.
Proof.
  intros Hconv Hknown Hrun.
  destruct (find_book_by_id self book_id) as [[pos book]|] eqn:Hfind.
  - rewrite (change_status_found _ _ _ _ _ _ Hfind) in Hrun.
    injection Hrun as <- _. by apply Forall_insert.
  - rewrite change_status_missing in Hrun by done. by injection Hrun as <- _.
Qed.

Ltac returns_steps :=
  repeat first
    [ apply returns_ret
    | eapply returns_bind; [apply returns_any|intros ? _] ].

(** X23. A turn of the menu that leads to another turn keeps a store
    with positive, pairwise distinct identifiers and statuses among the
    two known ones that way, over the same backing file. *)
Theorem turn_keeps_store_valid (library library' : Library)
    (t t' : Terminal) :
  well_formed library → conventional library →
  turn library t = (Done (Again library'), t') →
  well_formed library' ∧ conventional library'
  ∧ storage_file library' = storage_file library.
Proof.
  intros Hwf Hconv Hturn.
  assert (valid_after library (Again library)) as Hsame by done.
  assert (∀ lib', api_step library lib' → conventional lib' →
                  valid_after library (Again lib')) as Hstep.
  { intros lib' Hs Hc. split; [by apply (api_step_well_formed library)|].
    split; [done|]. by apply api_step_storage_file. }
  enough (returns (turn library) (valid_after library)) as Hreturns
    by apply (Hreturns t (Again library') t' Hturn).
  unfold turn. eapply returns_bind; [apply returns_any|intros _ _].
  eapply returns_bind; [apply returns_any|intros choice _].
  unfold choose.
  repeat match goal with
         | |- returns (if ?c then _ else _) _ => destruct c
         end.
  - unfold add_turn.
    do 4 (eapply returns_bind; [apply returns_any|intros ? _]).
    eapply returns_bind with (P := valid_after library ∘ Again).
    + apply returns_call. intros w lib' w' Hrun. apply Hstep.
      * by eapply step_add_book.
      * by eapply add_book_conventional.
    + intros lib' Hlib'. by returns_steps.
  - unfold remove_turn.
    do 2 (eapply returns_bind; [apply returns_any|intros ? _]).
    eapply returns_bind with (P := valid_after library ∘ Again).
    + apply returns_call. intros w lib' w' Hrun. apply Hstep.
      * by eapply step_remove_book.
      * by eapply remove_book_conventional.
    + intros lib' Hlib'. by returns_steps.
  - unfold search_turn.
    eapply returns_bind; [apply returns_any|intros field _]. cbv zeta.
    repeat match goal with
           | |- returns (if ?c then _ else _) _ => destruct c
           end; by returns_steps.
  - unfold list_turn. by returns_steps.
  - unfold status_turn.
    do 3 (eapply returns_bind; [apply returns_any|intros ? _]). cbv zeta.
    match goal with
    | |- returns (if ?c then _ else _) _ => destruct c eqn:Hcheck
    end; [|by returns_steps].
    eapply returns_bind with (P := valid_after library ∘ Again).
    + apply returns_call. intros w lib' w' Hrun. apply Hstep.
      * by eapply step_change_status.
      * eapply change_status_conventional; [done| |done].
        apply orb_true_iff in Hcheck as [Heq|Heq];
          apply String.eqb_eq in Heq; [by left|by right].
    + intros lib' Hlib'. by returns_steps.
  - by apply returns_ret.
  - by returns_steps.
Qed.

(** *** The loop *)

Lemma choose_leave (choice : string) (library : Library) (t t' : Terminal) :
  choose choice library t = (Done Leave, t') → choice = "6" ∧ t' = t.
Proof.
  assert (∀ (m : T next), returns m (λ n, n ≠ Leave) →
            m t = (Done Leave, t') → choice = "6" ∧ t' = t) as Hnot.
  { intros m Hm Hrun. by destruct (Hm t Leave t' Hrun). }
  unfold choose.
  destruct (String.eqb choice "1");
    [apply Hnot; unfold add_turn; by returns_steps|].
  destruct (String.eqb choice "2");
    [apply Hnot; unfold remove_turn; by returns_steps|].
  destruct (String.eqb choice "3").
  { apply Hnot. unfold search_turn.
    eapply returns_bind; [apply returns_any|intros field _]. cbv zeta.
    repeat match goal with
           | |- returns (if ?c then _ else _) _ => destruct c
           end; by returns_steps. }
  destruct (String.eqb choice "4");
    [apply Hnot; unfold list_turn; by returns_steps|].
  destruct (String.eqb choice "5").
  { apply Hnot. unfold status_turn.
    do 3 (eapply returns_bind; [apply returns_any|intros ? _]). cbv zeta.
    match goal with
    | |- returns (if ?c then _ else _) _ => destruct c
    end; by returns_steps. }
  destruct (String.eqb_spec choice "6") as [->|_].
  - by intros [= <-].
  - apply Hnot. by returns_steps.
Qed.

Lemma turn_reads (library : Library) (t t' : Terminal) (n : next) :
  turn library t = (Done n, t') →
  ∃ choice used,
    stdin t = choice :: used ++ stdin t'
    ∧ (n = Leave → choice = "6" ∧ used = []).
Proof.
  destruct t as [lines sc d]. destruct lines as [|choice rest].
  - by rewrite turn_eof.
  - rewrite turn_chosen. intros Hrun.
    destruct (reads_choose choice library
                {| stdin := rest; screen := after_menu sc []; disk := d |})
      as [used Hused].
    rewrite Hrun in Hused. simpl in *. exists choice, used.
    split; [by rewrite Hused|]. intros ->.
    apply choose_leave in Hrun as [-> ->]. split; [done|]. simpl in Hused.
    destruct used; [done|].
    apply (f_equal length) in Hused. rewrite length_app in Hused.
    simpl in Hused. lia.
Qed.

Lemma loop_enough (fuel : nat) :
  ∀ (library : Library) (t : Terminal),
  (length (stdin t) < fuel)%nat →
  ∃ r t',
    loop fuel library t = Some (r, t')
    ∧ (r = Done () → ∃ used, stdin t = used ++ "6" :: stdin t').
Proof.
  induction fuel as [|fuel IH]; intros library t Hfuel; [lia|].
  simpl loop. destruct (turn library t) as [[[library'|]|c] t1] eqn:Hturn.
  - destruct (turn_reads _ _ _ _ Hturn) as (choice & used & Hread & _).
    assert (length (stdin t1) < length (stdin t))%nat as Hless.
    { rewrite Hread. simpl. rewrite length_app. lia. }
    destruct (IH library' t1) as (r & t' & Hloop & Hleft); [lia|].
    exists r, t'. split; [done|].
    intros Hr. destruct (Hleft Hr) as [used' Hused'].
    exists (choice :: used ++ used'). rewrite Hread, Hused'.
    simpl. by rewrite <- app_assoc.
  - destruct (turn_reads _ _ _ _ Hturn) as (choice & used & Hread & Hsix).
    destruct (Hsix eq_refl) as [-> ->].
    exists (Done ()), t1. split; [done|]. intros _. by exists [].
  - by exists (Crashed c), t1.
Qed.

Lemma loop_more (fuel : nat) :
  ∀ (library : Library) (t : Terminal) (result : flow unit * Terminal)
    (fuel' : nat),
  loop fuel library t = Some result → (fuel ≤ fuel')%nat →
  loop fuel' library t = Some result.
Proof.
  induction fuel as [|fuel IH]; intros library t result fuel' Hloop Hle;
    [done|].
  destruct fuel' as [|fuel']; [lia|]. simpl in *.
  destruct (turn library t) as [[[library'|]|c] t1]; [|done..].
  apply (IH _ _ _ _ Hloop). lia.
Qed.

(** X16. [main] ends on every input: one turn more than there are lines
    to read is fuel enough, and any greater fuel gives the same result.
    It returns only after reading the choice [6]; otherwise it ends by
    an exception. *)
Theorem main_ends (t : Terminal) :
  ∃ r t',
    main t = Some (r, t')
    ∧ (r = Done () → ∃ used, stdin t = used ++ "6" :: stdin t')
    ∧ ∀ library t0 fuel,
        call (Library_init "library.json") t = (Done library, t0) →
        (length (stdin t0) < fuel)%nat →
        loop fuel library t0 = Some (r, t').
Proof.
  unfold main.
  destruct (call (Library_init "library.json") t) as [[library|c] t0] eqn:Hinit.
  - assert (stdin t0 = stdin t) as Hsame.
    { destruct (reads_call (Library_init "library.json") t) as [used Hused].
      rewrite Hinit in Hused. simpl in Hused.
      unfold call in Hinit.
      destruct (Library_init "library.json" _) as [[a|e|] w];
        by injection Hinit as _ <-. }
    destruct (loop_enough (S (length (stdin t0))) library t0)
      as (r & t' & Hloop & Hleft); [lia|].
    exists r, t'. split; [done|]. split; [by rewrite <- Hsame|].
    intros library1 t1 fuel [= <- <-] Hfuel.
    apply (loop_more _ _ _ _ _ Hloop). lia.
  - exists (Crashed c), t0. split; [done|]. split; [done|]. done.
Qed.


(** X25. Over a backing file that is missing, blank or not JSON, [main]
    runs its loop on an empty store; in the last case the decode
    diagnostic is the first line shown. *)
Theorem main_starts_empty (t : Terminal) :
  match disk t !! "library.json" with
  | None => True
  | Some text =>
      truthy_str (str_strip text) = false ∨ json_loads (str_strip text) = None
  end →
  main t
  = loop (S (length (stdin t)))
      {| storage_file := "library.json"; books := [] |}
      (show match disk t !! "library.json" with
            | Some text =>
                if truthy_str (str_strip text)
                then [Line msg_decode_error] else []
            | None => []
            end t).
Proof.
  intros Hfile. unfold main, call, Library_init.
  destruct (disk t !! "library.json") as [text|] eqn:Hdisk.
  - destruct (truthy_str (str_strip text)) eqn:Hdata.
    + destruct Hfile as [?|Hloads]; [done|].
      rewrite (load_books_decoded _ _ text) by done. by rewrite Hloads.
    + rewrite (load_books_blank _ _ text) by done. done.
  - rewrite load_books_absent by done. done.
Qed.

End Menu.

(** * The properties on concrete inputs *)

#[local] Existing Instance Reference.builtins.

(** The scenario of the specification: two additions to an empty store,
    a search by a lower-case part of an author's name, a removal. *)
Example scenario_dune_foundation :
  ∃ lib0 w0 lib1 w1 lib2 w2 lib3 w3,
    Library_init library_json no_files = (Return lib0, w0)
    ∧ books lib0 = []
    ∧ add_book lib0 "Dune" "Herbert" 1965 w0 = (Return lib1, w1)
    ∧ books lib1 = [dune]
    ∧ add_book lib1 "Foundation" "Asimov" 1951 w1 = (Return lib2, w2)
    ∧ books lib2 = [dune; foundation]
    ∧ find_books lib2 None (Some "herb") None = [dune]
    ∧ remove_book lib2 1 w2 = (Return lib3, w3)
    ∧ list_books lib3 = [foundation]
    ∧ Library_init library_json w3 = (Return lib3, w3).
Proof. do 8 eexists. repeat split; vm_compute; reflexivity. Qed.

(** The round trip on a shelf of three books, with the reference [json]. *)
Lemma save_then_load_roundtrip_witness :
  reads_back (JArr (map to_dict (books (shelf [dune; foundation; solaris]))))
  ∧ ∃ w1,
      save_books (shelf [dune; foundation; solaris]) no_files = (Return (), w1)
      ∧ w1 = saved (shelf [dune; foundation; solaris]) no_files
      ∧ Library_init (storage_file (shelf [dune; foundation; solaris])) w1
        = (Return (shelf [dune; foundation; solaris]), w1).
Proof.
  assert (reads_back
            (JArr (map to_dict (books (shelf [dune; foundation; solaris])))))
    as Hback by (split; vm_compute; reflexivity).
  split; [exact Hback|].
  exact (save_then_load_roundtrip (shelf [dune; foundation; solaris])
           no_files Hback).
Defined.

(** The recovery from a backing file that holds an unfinished object. *)
Lemma invalid_json_recovered_witness :
  fs (world_with "{oops") !! library_json = Some "{oops"
  ∧ truthy_str (str_strip "{oops") = true
  ∧ json_loads (str_strip "{oops") = None
  ∧ Library_init library_json (world_with "{oops")
    = (Return (shelf []), decode_reported (world_with "{oops"))
  ∧ add_book (shelf []) "Dune" "Herbert" 1965
      (decode_reported (world_with "{oops"))
    = (Return (shelf [dune]),
       saved (shelf [dune]) (decode_reported (world_with "{oops"))).
Proof.
  assert (fs (world_with "{oops") !! library_json = Some "{oops") as Hfile
    by (vm_compute; reflexivity).
  assert (truthy_str (str_strip "{oops") = true) as Hdata
    by (vm_compute; reflexivity).
  assert (json_loads (str_strip "{oops") = None) as Hloads
    by (vm_compute; reflexivity).
  destruct (invalid_json_recovered library_json "{oops" (world_with "{oops")
              Hfile Hdata Hloads) as (Hinit & _ & _ & Hadd).
  split; [exact Hfile|]. split; [exact Hdata|]. split; [exact Hloads|].
  split; [exact Hinit|]. exact (Hadd "Dune" "Herbert" 1965).
Defined.


(** The identifier [3] given again after the book that carried it is
    removed. *)
Lemma id_reused_after_removing_max_witness :
  ∃ self1 self2 nb,
    remove_book (shelf [dune; solaris; foundation]) 3 no_files
      = (Return self1, saved self1 no_files)
    ∧ add_book self1 "Emma" "Austen" 1815 (saved self1 no_files)
        = (Return self2, saved self2 (saved self1 no_files))
    ∧ books self2 = books self1 ++ [nb]
    ∧ id nb ≤ 3
    ∧ match books self1 with
      | [] => id nb = 1
      | _ :: _ => ∃ m', is_max_id m' (books self1) ∧ id nb = 1 + m'
      end.
Proof.
  apply (id_reused_after_removing_max (shelf [dune; solaris; foundation]) 3
           "Emma" "Austen" 1815 no_files).
  - split.
    + exists solaris. split; [repeat constructor|reflexivity].
    + intros b Hb. simpl in Hb.
      repeat (apply elem_of_cons in Hb as [->|Hb]; [vm_compute; discriminate|]).
      by apply not_elem_of_nil in Hb.
  - intros [|[|[|i]]] [|[|[|j]]] bi bj Hi Hj Hidi Hidj;
      simpl in Hi, Hj; simplify_eq; try reflexivity;
      vm_compute in Hidi; vm_compute in Hidj; discriminate.
  - simpl. discriminate.
Defined.

(** C2 as stated fails on a search by year [0]: in a store whose only
    book is of 1965 it returns that book, which does not meet the
    criterion given, an exact match on the year. *)
Lemma find_books_year_zero_returns_all :
  find_books (shelf [dune]) None None (Some 0) = [dune]
  ∧ year dune ≠ 0
  ∧ ¬ meets_given None None (Some 0) dune.
Proof.
  split; [reflexivity|]. split; [discriminate|].
  intros (_ & _ & Hyear). specialize (Hyear 0 eq_refl). discriminate.
Qed.

(** C4 as stated fails where two books carry one identifier, which a
    hand-edited file brings about: the store built over such a file
    holds both books, [remove_book 1] removes the first of them, and
    [find_book_by_id 1] then finds the second instead of nothing. *)
Lemma remove_then_find_duplicate_id :
  let text := json_dumps (JArr [to_dict twin_a; to_dict twin_b]) in
  ∃ lib w lib' w',
    Library_init library_json (world_with text) = (Return lib, w)
    ∧ books lib = [twin_a; twin_b]
    ∧ remove_book lib 1 w = (Return lib', w')
    ∧ books lib' = [twin_b]
    ∧ find_book_by_id lib' 1 = Some (0%nat, twin_b)
    ∧ find_book_by_id lib' 1 ≠ None.
Proof.
  do 4 eexists.
  repeat split; try (vm_compute; reflexivity). vm_compute. discriminate.
Qed.


(** C10 as stated fails in two stores a hand-edited file brings about.
    In a store whose only book has identifier [0], removing that book
    and adding one assigns [1], which is greater than [0]. In a store
    where two books carry the maximum identifier [1], removing the
    first and adding one assigns [2], which is greater than [1]. *)
Lemma max_removed_then_greater_id :
  (is_max_id 0 (books (shelf [nought]))
   ∧ ∃ lib1 w1 lib2 w2 nb,
       remove_book (shelf [nought]) 0 no_files = (Return lib1, w1)
       ∧ add_book lib1 "Dune" "Herbert" 1965 w1 = (Return lib2, w2)
       ∧ books lib2 = books lib1 ++ [nb]
       ∧ id nb = 1 ∧ ¬ id nb ≤ 0)
  ∧ (is_max_id 1 (books (shelf [twin_a; twin_b]))
     ∧ ∃ lib1 w1 lib2 w2 nb,
         remove_book (shelf [twin_a; twin_b]) 1 no_files = (Return lib1, w1)
         ∧ add_book lib1 "Dune" "Herbert" 1965 w1 = (Return lib2, w2)
         ∧ books lib2 = books lib1 ++ [nb]
         ∧ id nb = 2 ∧ ¬ id nb ≤ 1).
Proof.
  split; (split; [split|]).
  - exists nought. split; [repeat constructor|reflexivity].
  - intros b Hb. simpl in Hb.
    repeat (apply elem_of_cons in Hb as [->|Hb]; [vm_compute; discriminate|]).
    by apply not_elem_of_nil in Hb.
  - do 5 eexists. repeat split; try (vm_compute; reflexivity).
    change (¬ 1 ≤ 0). lia.
  - exists twin_a. split; [repeat constructor|reflexivity].
  - intros b Hb. simpl in Hb.
    repeat (apply elem_of_cons in Hb as [->|Hb]; [vm_compute; discriminate|]).
    by apply not_elem_of_nil in Hb.
  - do 5 eexists. repeat split; try (vm_compute; reflexivity).
    change (¬ 2 ≤ 1). lia.
Qed.

(** ** The further properties on concrete inputs *)

#[local] Existing Instance ReferenceConsole.int_builtin.

(** Nothing to read: no backing file, and a backing file of blanks. *)
Lemma load_nothing_to_read_witness :
  load_books (shelf [dune]) no_files = (Return (shelf [dune]), no_files)
  ∧ load_books (shelf [dune]) (world_with "   ")
    = (Return (shelf [dune]), world_with "   ").
Proof.
  split.
  - apply (load_nothing_to_read (shelf [dune]) no_files).
    vm_compute. exact I.
  - apply (load_nothing_to_read (shelf [dune]) (world_with "   ")).
    vm_compute. reflexivity.
Defined.

(** A store that held one book loads the two books of the file. *)
Lemma load_replaces_collection_witness :
  let text := json_dumps (JArr (map to_dict [dune; foundation])) in
  load_books (shelf [solaris]) (world_with text)
  = (Return (set_books (shelf [solaris]) [dune; foundation]), world_with text).
Proof.
  intros text.
  apply (load_replaces_collection (shelf [solaris]) (world_with text) text
           [dune; foundation]).
  - vm_compute; reflexivity.
  - vm_compute; reflexivity.
  - vm_compute; reflexivity.
Defined.

(** A file that holds an empty object, and a file that holds a number. *)
Lemma load_not_a_list_witness :
  load_books (shelf [dune]) (world_with "{}")
  = (Return (set_books (shelf [dune]) []), world_with "{}")
  ∧ load_books (shelf [dune]) (world_with "7")
    = (Raise TypeError, world_with "7").
Proof.
  split.
  - apply (load_not_a_list (shelf [dune]) (world_with "{}") "{}" (JObj [])).
    + vm_compute; reflexivity.
    + vm_compute; reflexivity.
    + vm_compute; reflexivity.
    + discriminate.
  - apply (load_not_a_list (shelf [dune]) (world_with "7") "7" (JInt 7)).
    + vm_compute; reflexivity.
    + vm_compute; reflexivity.
    + vm_compute; reflexivity.
    + discriminate.
Defined.

(** A file of notes beside the backing file. *)
Lemma other_files_untouched_witness :
  let w := {| fs := {[ "notes.txt" := "keep" ]}; stdout := [] |} in
  fs (save_books (shelf [dune]) w).2 !! "notes.txt" = fs w !! "notes.txt"
  ∧ (∀ t a y, fs (add_book (shelf [dune]) t a y w).2 !! "notes.txt"
              = fs w !! "notes.txt")
  ∧ (∀ book_id, fs (remove_book (shelf [dune]) book_id w).2 !! "notes.txt"
                = fs w !! "notes.txt")
  ∧ (∀ book_id new_status,
       fs (change_status (shelf [dune]) book_id new_status w).2 !! "notes.txt"
       = fs w !! "notes.txt").
Proof.
  intros w.
  apply (other_files_untouched (shelf [dune]) w "notes.txt").
  vm_compute. discriminate.
Defined.

(** Two additions to an empty store and the removal of the first book. *)
Lemma methods_keep_invariant_witness :
  well_formed (shelf [foundation])
  ∧ storage_file (shelf [foundation]) = storage_file (shelf []).
Proof.
  apply (methods_keep_invariant (shelf []) (shelf [foundation])).
  - split; constructor.
  - apply (rtc_l _ _ (shelf [dune])).
    { apply (step_add_book _ "Dune" "Herbert" 1965 no_files
               (saved (shelf [dune]) no_files)).
      vm_compute; reflexivity. }
    apply (rtc_l _ _ (shelf [dune; foundation])).
    { apply (step_add_book _ "Foundation" "Asimov" 1951 no_files
               (saved (shelf [dune; foundation]) no_files)).
      vm_compute; reflexivity. }
    apply rtc_once.
    apply (step_remove_book _ 1 no_files (saved (shelf [foundation]) no_files)).
    vm_compute; reflexivity.
Defined.


(** The restart with the reference [json], on a shelf of two books. *)
Lemma restart_after_mutation_witness :
  let self := shelf [dune; foundation] in
  (∀ t a y, ∃ self',
     add_book self t a y no_files = (Return self', saved self' no_files)
     ∧ Library_init (storage_file self) (saved self' no_files)
       = (Return self', saved self' no_files))
  ∧ (∀ book_id, find_book_by_id self book_id ≠ None → ∃ self',
       remove_book self book_id no_files = (Return self', saved self' no_files)
       ∧ Library_init (storage_file self) (saved self' no_files)
         = (Return self', saved self' no_files))
  ∧ (∀ book_id new_status, find_book_by_id self book_id ≠ None → ∃ self',
       change_status self book_id new_status no_files
       = (Return self', saved self' no_files)
       ∧ Library_init (storage_file self) (saved self' no_files)
         = (Return self', saved self' no_files)).
Proof.
  intros self.
  apply (restart_after_mutation self no_files).
  exact ReferenceFacts.reads_back_books.
Defined.

(** The choice [7]. *)
Lemma unknown_choice_changes_nothing_witness :
  turn (shelf [dune]) (typing ["7"; "6"])
  = (Done (Again (shelf [dune])),
     {| stdin := ["6"];
        screen := after_menu [] [Line "Неверный выбор."];
        disk := ∅ |}).
Proof.
  apply (unknown_choice_changes_nothing (shelf [dune]) "7" ["6"] [] ∅).
  apply (bool_decide_unpack _). vm_compute. exact I.
Defined.

(** A status change for the identifier [9] on a shelf that has no such
    book. *)
Lemma status_turn_unknown_id_witness :
  turn (shelf [dune]) (typing ["5"; "9"; " выдана "; "6"])
  = (Done (Again (shelf [dune])),
     {| stdin := ["6"];
        screen :=
          after_menu []
            [ Prompt "Введите ID книги: ";
              Prompt "Введите новый статус книги (в наличии/выдана): ";
              Line (msg_not_found 9);
              Line "Статус книги обновлен." ];
        disk := ∅ |}).
Proof.
  apply (status_turn_unknown_id (shelf [dune]) "9" " выдана " 9 ["6"] [] ∅).
  - vm_compute; reflexivity.
  - right. vm_compute; reflexivity.
  - vm_compute; reflexivity.
Defined.

(** The status [lost] for a book that the shelf has. *)
Lemma status_turn_rejects_witness :
  turn (shelf [dune]) (typing ["5"; "1"; "lost"; "6"])
  = (Done (Again (shelf [dune])),
     {| stdin := ["6"];
        screen :=
          after_menu []
            [ Prompt "Введите ID книги: ";
              Prompt "Введите новый статус книги (в наличии/выдана): ";
              Line "Неверный статус." ];
        disk := ∅ |}).
Proof.
  apply (status_turn_rejects (shelf [dune]) "1" "lost" 1 ["6"] [] ∅).
  - vm_compute; reflexivity.
  - intros [Hstatus|Hstatus]; vm_compute in Hstatus; discriminate.
Defined.

(** A search by the year [0] on a shelf of two books shows both. *)
Lemma search_by_year_turn_witness :
  turn (shelf [dune; solaris]) (typing ["3"; " Year "; "0"; "6"])
  = (Done (Again (shelf [dune; solaris])),
     {| stdin := ["6"];
        screen :=
          after_menu []
            ([ Prompt "Искать по (title/author/year): ";
               Prompt "Введите год издания книги: " ]
             ++ match find_books (shelf [dune; solaris]) None None (Some 0) with
                | [] => [Line "Книги не найдены."]
                | found => map (λ b, Line (show_book b)) found
                end);
        disk := ∅ |})
  ∧ (0 = 0 → find_books (shelf [dune; solaris]) None None (Some 0)
             = books (shelf [dune; solaris])).
Proof.
  apply (search_by_year_turn (shelf [dune; solaris]) " Year " "0" 0 ["6"] [] ∅).
  - vm_compute; reflexivity.
  - vm_compute; reflexivity.
Defined.

(** The turn that checks out the only book of a shelf. *)
Lemma turn_keeps_store_valid_witness :
  let lent := shelf [Book_init "Dune" "Herbert" 1965 1 status_checked_out] in
  (turn (shelf [dune]) (typing ["5"; "1"; "выдана"])).1 = Done (Again lent)
  ∧ well_formed lent ∧ conventional lent
  ∧ storage_file lent = storage_file (shelf [dune]).
Proof.
  intros lent.
  assert (turn (shelf [dune]) (typing ["5"; "1"; "выдана"])
          = (Done (Again lent),
             (turn (shelf [dune]) (typing ["5"; "1"; "выдана"])).2)) as Hturn
    by (vm_compute; reflexivity).
  split; [by rewrite Hturn|].
  apply (turn_keeps_store_valid (shelf [dune]) lent
           (typing ["5"; "1"; "выдана"])
           (turn (shelf [dune]) (typing ["5"; "1"; "выдана"])).2).
  - split; apply (bool_decide_unpack _); vm_compute; exact I.
  - repeat constructor.
  - exact Hturn.
Defined.


(** [main] with no backing file, and over an unfinished object: the
    choice [6] ends either run, the second after the diagnostic. *)
Lemma main_starts_empty_witness :
  main (typing ["6"])
  = Some (Done (), {| stdin := []; screen := after_menu [] []; disk := ∅ |})
  ∧ main {| stdin := ["6"]; screen := [];
            disk := {[ "library.json" := "{oops" ]} |}
    = Some (Done (),
            {| stdin := [];
               screen := after_menu [Line msg_decode_error] [];
               disk := {[ "library.json" := "{oops" ]} |}).
Proof.
  split.
  - rewrite (main_starts_empty (typing ["6"]));
      [vm_compute; reflexivity|vm_compute; exact I].
  - rewrite (main_starts_empty
               {| stdin := ["6"]; screen := [];
                  disk := {[ "library.json" := "{oops" ]} |});
      [vm_compute; reflexivity|vm_compute; right; reflexivity].
Defined.
